(** * Flat-field correction of a Chunk Exposure

    A shallow embedding of [flatFieldCorrectChunkExposure]
    (src/flatFieldCorrectChunkExposure.cc) and the properties its
    specification states about it.

    The function is a template over the pixel type and works in [double];
    the embedding is a Section over a type [D] with the arithmetic of
    [double] as a class, instantiated below with IEEE binary64.

    The C++ function throws, returns early and mutates both exposures, so a
    statement is a function from the state of the two exposures to an
    outcome: control reaches the next statement, a [return] was executed, or
    an exception was thrown. *)

From Stdlib Require Import List String ZArith Bool Lia.
From Stdlib Require Import Floats.
Import ListNotations.

Open Scope string_scope.
Open Scope list_scope.
Open Scope Z_scope.

Set Warnings "-register-all".

(** ** The arithmetic of [double] *)

Class Double (D : Type) : Type := {
  dzero : D;
  dadd : D -> D -> D;
  dsub : D -> D -> D;
  dmul : D -> D -> D;
  ddiv : D -> D -> D;
  dsqrt : D -> D;
  (** [static_cast<double>(n)] for the [long int] pixel count. *)
  of_long : Z -> D;
  (** the conversion of [if (flatFieldScale)]: true unless the value is 0. *)
  to_bool : D -> bool
}.

(** IEEE 754 binary64, the [double] of the code. *)
#[export] Instance binary64 : Double float := {
  dzero := 0%float;
  dadd := PrimFloat.add;
  dsub := PrimFloat.sub;
  dmul := PrimFloat.mul;
  ddiv := PrimFloat.div;
  dsqrt := PrimFloat.sqrt;
  of_long := fun n => PrimFloat.of_uint63 (Uint63.of_Z n);
  to_bool := fun x => negb (PrimFloat.eqb x 0%float)
}.

(** ** Exceptions and returned values *)

(** The exception classes the function throws, each with its message;
    [bad_any_cast] is what [boost::any_cast] throws on a value of another
    type. *)
Inductive Exception : Type :=
| Runtime (what : string)
| LengthError (what : string)
| RangeError (what : string)
| NotFound (what : string)
| DomainError (what : string)
| bad_any_cast
| PolicyError (key : string).

(** The names the specification gives to the failures. *)
Inductive ErrorKind : Type :=
| AlreadyProcessed | DimensionMismatch | RegionMismatch | FilterMismatch
| MetadataNotFound | ConfigNotFound | CastFailure.

Definition errorKind (e : Exception) : ErrorKind :=
  match e with
  | Runtime _ => AlreadyProcessed
  | LengthError _ => DimensionMismatch
  | RangeError _ => RegionMismatch
  | NotFound _ => MetadataNotFound
  | DomainError _ => FilterMismatch
  | bad_any_cast => CastFailure
  | PolicyError _ => ConfigNotFound
  end.

(** What the [return] statements of the function hand back: an
    [unsigned int] (lines 120, 129, 143, 152) or a [std::string]
    (line 199). *)
Inductive Returned : Type :=
| RetUInt (n : Z)
| RetString (s : string).

(** [std::string("In ") + __func__ + ...]. *)
Definition In_func (msg : string) : string :=
  ("In " ++ "flatFieldCorrectChunkExposure" ++ msg)%string.

Section Stage.

Context {D : Type} `{Double D}.

(** The declaration [std::string normalizeKey = datasetPolicy.getDouble(..)]
    of line 216 turns a [double] into a string; how is left open. *)
Variable string_of_double : D -> string.

(** ** Metadata: [DataProperty] *)

(** The value of a property, a [boost::any]. *)
Inductive Any : Type :=
| AnyInt (i : Z)
| AnyDouble (d : D)
| AnyString (s : string).

Definition DataProperty : Type := (string * Any)%type.
Definition getName (p : DataProperty) : string := fst p.
Definition getValue (p : DataProperty) : Any := snd p.

(** The children of the metadata node of an image, in insertion order. *)
Definition Metadata : Type := list DataProperty.

(** Modelled from the spec: [DataProperty::findUnique], declared in
    lsst/daf/base/DataProperty.h. A key is looked up by unique name: the
    property is found when exactly one entry has the name, and the null
    pointer comes back when none or several have it. *)
Definition findUnique (name : string) (md : Metadata) : option DataProperty :=
  match filter (fun p => String.eqb (getName p) name) md with
  | [p] => Some p
  | _ => None
  end.

(** [DataProperty::addProperty]: one more child, after the others. *)
Definition addProperty (p : DataProperty) (md : Metadata) : Metadata :=
  md ++ [p].

(** ** Configuration: [Policy] *)

Inductive PolicyValue : Type :=
| PString (s : string)
| PDouble (d : D)
| PBool (b : bool)
| PPolicy (p : list (string * PolicyValue)).

Definition Policy : Type := list (string * PolicyValue).

Definition policyLookup (key : string) (p : Policy) : option PolicyValue :=
  match find (fun kv => String.eqb (fst kv) key) p with
  | Some kv => Some (snd kv)
  | None => None
  end.

(** ** Exposures *)

(** An exposure: its size, its samples and mask in row-major order, and the
    metadata of its image. *)
Record Exposure : Type := mkExposure {
  getCols : nat;
  getRows : nat;
  image : list D;
  mask : list Z;
  metadata : Metadata
}.

Inductive Which : Type := Chunk | Master.

(** What the function does to pixels and metadata, in order. *)
Inductive Event : Type :=
| ReadPixel (addr : nat)            (* [*masterChunkColAcc.image] *)
| ImageArith (target : Which)       (* an in-place operator on every pixel *)
| ImageRead (source : Which)        (* the right operand of [/=] *)
| AddedProperty (name : string).

(** The state the function runs in: the two exposures it was given, the
    memory that follows the samples of the master flat (read when an
    accessor has left the image), and the events so far, latest last. *)
Record World : Type := mkWorld {
  chunkExposure : Exposure;
  masterChunkExposure : Exposure;
  beyond : nat -> D;
  events : list Event
}.

(** ** Statements *)

Inductive Outcome (A : Type) : Type :=
| Next (a : A) (w : World)
| Return (v : Returned) (w : World)
| Throw (e : Exception) (w : World).
Arguments Next {A} a w.
Arguments Return {A} v w.
Arguments Throw {A} e w.

Definition Stmt (A : Type) : Type := World -> Outcome A.

Definition pure {A} (a : A) : Stmt A := fun w => Next a w.
Definition throw {A} (e : Exception) : Stmt A := fun w => Throw e w.
Definition ret {A} (v : Returned) : Stmt A := fun w => Return v w.

Definition bind {A B} (m : Stmt A) (k : A -> Stmt B) : Stmt B :=
  fun w =>
    match m w with
    | Next a w' => k a w'
    | Return v w' => Return v w'
    | Throw e w' => Throw e w'
    end.

Notation "x <- m ;; k" := (bind m (fun x => k))
  (at level 61, m at next level, right associativity).
Notation "' pat <- m ;; k" := (bind m (fun x => match x with pat => k end))
  (at level 61, pat pattern, m at next level, right associativity).
Notation "m ;; k" := (bind m (fun _ => k))
  (at level 61, right associativity).

(** [lsst::pex::logging::TTrace]: a log line, which the embedding drops. *)
Definition TTrace (level : nat) (msg : string) : Stmt unit := pure tt.

(** The world after some more events. *)
Definition withEvents (w : World) (evs : list Event) : World :=
  mkWorld (chunkExposure w) (masterChunkExposure w) (beyond w)
          (events w ++ evs).

(** [chunkMetadata] and [masterChunkMetadata] are shared pointers to the
    metadata of the images of the two exposures: a lookup through them sees
    the metadata of the exposure as it is at that moment. *)
Definition chunkMetadata_findUnique (name : string)
  : Stmt (option DataProperty) :=
  fun w => Next (findUnique name (metadata (chunkExposure w))) w.

Definition masterChunkMetadata_findUnique (name : string)
  : Stmt (option DataProperty) :=
  fun w => Next (findUnique name (metadata (masterChunkExposure w))) w.

Definition setMetadata (e : Exposure) (md : Metadata) : Exposure :=
  mkExposure (getCols e) (getRows e) (image e) (mask e) md.

Definition setImage (e : Exposure) (px : list D) : Exposure :=
  mkExposure (getCols e) (getRows e) px (mask e) (metadata e).

Definition chunkMetadata_addProperty (p : DataProperty) : Stmt unit :=
  fun w =>
    Next tt (mkWorld
               (setMetadata (chunkExposure w)
                            (addProperty p (metadata (chunkExposure w))))
               (masterChunkExposure w) (beyond w)
               (events w ++ [AddedProperty (getName p)])).

(** [boost::any_cast<const int>] and [boost::any_cast<const std::string>]. *)
Definition any_cast_int (a : Any) : Stmt Z :=
  match a with
  | AnyInt i => pure i
  | _ => throw bad_any_cast
  end.

Definition any_cast_string (a : Any) : Stmt string :=
  match a with
  | AnyString s => pure s
  | _ => throw bad_any_cast
  end.

(** An [int] stored in an [unsigned int]. *)
Definition to_unsigned (i : Z) : Z := i mod 2 ^ 32.

(** Modelled from the spec: the typed lookups of [lsst::pex::policy::Policy],
    which fail loudly when the key or section is missing or mistyped. *)
Definition getPolicy (p : Policy) (key : string) : Stmt Policy :=
  match policyLookup key p with
  | Some (PPolicy q) => pure q
  | _ => throw (PolicyError key)
  end.

Definition getString (p : Policy) (key : string) : Stmt string :=
  match policyLookup key p with
  | Some (PString s) => pure s
  | _ => throw (PolicyError key)
  end.

Definition getDouble (p : Policy) (key : string) : Stmt D :=
  match policyLookup key p with
  | Some (PDouble d) => pure d
  | _ => throw (PolicyError key)
  end.

Definition getBool (p : Policy) (key : string) : Stmt bool :=
  match policyLookup key p with
  | Some (PBool b) => pure b
  | _ => throw (PolicyError key)
  end.

(** ** Pixels *)

(** A [MaskedPixelAccessor]: the offset of the sample it points to from the
    first sample of the image it was built on, and the length of a row. *)
Record Accessor : Type := mkAccessor {
  stride : nat;
  offset : nat
}.

Definition nextCol (a : Accessor) : Accessor :=
  mkAccessor (stride a) (S (offset a)).
Definition nextRow (a : Accessor) : Accessor :=
  mkAccessor (stride a) (offset a + stride a)%nat.

(** [MaskedPixelAccessor masterChunkRowAcc(masterChunkMaskedImage)]: at the
    first sample of the master flat. *)
Definition MaskedPixelAccessor_master : Stmt Accessor :=
  fun w => Next (mkAccessor (getCols (masterChunkExposure w)) 0%nat) w.

(** The sample [i] places after the first sample of the master flat: one of
    the image, or what lies past it. *)
Definition sampleAt (w : World) (i : nat) : D :=
  match nth_error (image (masterChunkExposure w)) i with
  | Some v => v
  | None => beyond w i
  end.

(** [*acc.image]. *)
Definition deref (a : Accessor) : Stmt D :=
  fun w => Next (sampleAt w (offset a)) (withEvents w [ReadPixel (offset a)]).

Definition chunk_getCols : Stmt nat :=
  fun w => Next (getCols (chunkExposure w)) w.
Definition chunk_getRows : Stmt nat :=
  fun w => Next (getRows (chunkExposure w)) w.
Definition master_getCols : Stmt nat :=
  fun w => Next (getCols (masterChunkExposure w)) w.
Definition master_getRows : Stmt nat :=
  fun w => Next (getRows (masterChunkExposure w)) w.

(** Modelled from the spec: the in-place arithmetic of an exposure
    (lsst/afw/image/Exposure.h). A scalar operator acts on every sample;
    [chunkExposure /= masterChunkExposure] divides sample by sample (a
    sample with no partner in the other image stays). The mask is not
    touched. *)
Definition master_div_scalar (x : D) : Stmt unit :=
  fun w =>
    Next tt (mkWorld (chunkExposure w)
               (setImage (masterChunkExposure w)
                  (map (fun p => ddiv p x) (image (masterChunkExposure w))))
               (beyond w) (events w ++ [ImageArith Master])).

Definition master_mul_scalar (x : D) : Stmt unit :=
  fun w =>
    Next tt (mkWorld (chunkExposure w)
               (setImage (masterChunkExposure w)
                  (map (fun p => dmul p x) (image (masterChunkExposure w))))
               (beyond w) (events w ++ [ImageArith Master])).

Fixpoint divideImage (a b : list D) : list D :=
  match a, b with
  | x :: a', y :: b' => ddiv x y :: divideImage a' b'
  | _, _ => a
  end.

Definition chunk_div_master : Stmt unit :=
  fun w =>
    Next tt (mkWorld
               (setImage (chunkExposure w)
                  (divideImage (image (chunkExposure w))
                               (image (masterChunkExposure w))))
               (masterChunkExposure w)
               (beyond w) (events w ++ [ImageRead Master; ImageArith Chunk])).

(** ** The function, statement by statement *)

(** Lines 89-95: has the sub-stage been run on this Chunk Exposure? *)
Definition checkNotRunPreviously : Stmt unit :=
  isrFlatField <- chunkMetadata_findUnique "ISR_FLATCOR" ;;
  match isrFlatField with
  | Some _ =>
      TTrace 3 (In_func ": Exposure has already been Flat Field Corrected.  Terminating ISR sub-stage for this Chunk Exposure.") ;;
      throw (Runtime "Flat Field correction previously performed.")
  | None => pure tt
  end.

(** Lines 100-108: are the two exposures the same size? *)
Definition checkSameSize : Stmt unit :=
  numCols <- chunk_getCols ;;
  numRows <- chunk_getRows ;;
  mnumCols <- master_getCols ;;
  mnumRows <- master_getRows ;;
  if negb (numCols =? mnumCols)%nat || negb (numRows =? mnumRows)%nat
  then throw (LengthError (In_func ": Chunk Exposure and Master Flat Field Chunk Exposure are not the same size."))
  else pure tt.

(** The conditions [chunkType = "amp"] and [chunkType = "ccd"] of lines 115
    and 138 are assignments: each stores the literal in [chunkType], and the
    condition tests what was stored, which is not null. A [std::string] has
    no conversion to [bool], so this is a reading of the text, not of a
    compiled program; the properties below that depend on the branch taken
    are stated for [chunkType] "amp", for which the comparison the comment
    intends takes the same branch. *)
Definition assigned (literal : string) : string * bool := (literal, true).

(** Lines 116-136 and 139-159, the same statements for "AMPID" and "CCDID":
    the identifier of the Chunk Exposure, then that of the master, then the
    comparison. Each identifier is returned as soon as it is read. *)
Definition checkSameId (key : string) : Stmt unit :=
  idField <- chunkMetadata_findUnique key ;;
  id <- match idField with
        | Some p =>
            i <- any_cast_int (getValue p) ;;
            let id := to_unsigned i in
            ret (A := unit) (RetUInt id) ;;
            pure id
        | None =>
            throw (NotFound (In_func (": Could not get " ++ key ++ " from the Chunk Metadata.")%string))
        end ;;
  midField <- masterChunkMetadata_findUnique key ;;
  mid <- match midField with
         | Some p =>
             i <- any_cast_int (getValue p) ;;
             let mid := to_unsigned i in
             ret (A := unit) (RetUInt mid) ;;
             pure mid
         | None =>
             throw (NotFound (In_func (": Could not get " ++ key ++ " from the Master Flat Field Chunk Metadata.")%string))
         end ;;
  if negb (id =? mid)
  then throw (RangeError (In_func ": Chunk Exposure and Master Flat Field Chunk Exposure are not derived from the same pixels."))
  else pure tt.

(** Lines 113-163: are the two exposures derived from the same pixels?
    Hands on [flatPolicy], which the correction reads later. *)
Definition checkSamePixels (isrPolicy : Policy) : Stmt Policy :=
  flatPolicy <- getPolicy isrPolicy "flatPolicy" ;;
  chunkType <- getString flatPolicy "chunkType" ;;
  (let '(chunkType, isAmp) := assigned "amp" in
   if isAmp then checkSameId "AMPID"
   else
     let '(chunkType, isCcd) := assigned "ccd" in
     if isCcd then checkSameId "CCDID"
     else pure tt) ;;
  pure flatPolicy.

(** [isalpha] on the value of a filter. *)
Definition isalpha (c : Z) : bool :=
  ((65 <=? c) && (c <=? 90)) || ((97 <=? c) && (c <=? 122)).

(** Lines 168-206: were the two exposures taken in the same filter? *)
Definition checkSameFilter : Stmt unit :=
  filterField <- chunkMetadata_findUnique "FILTER" ;;
  filter <- match filterField with
            | Some p =>
                i <- any_cast_int (getValue p) ;;
                pure (to_unsigned i)
            | None =>
                throw (NotFound (In_func ": Could not get FILTER from the Chunk Metadata."))
            end ;;
  (if isalpha filter then TTrace 3 (In_func ": Filter Name: %s") else pure tt) ;;
  mfilterField <- masterChunkMetadata_findUnique "FILTER" ;;
  mfilter <- match mfilterField with
             | Some p =>
                 i <- any_cast_int (getValue p) ;;
                 pure (to_unsigned i)
             | None =>
                 throw (NotFound (In_func ": Could not get FILTER from the Master Flat Field Chunk Metadata."))
             end ;;
  (if isalpha mfilter then TTrace 3 (In_func ": Filter Name: %s") else pure tt) ;;
  mfilter <- match mfilterField with
             | Some p =>
                 i <- any_cast_int (getValue p) ;;
                 let mfilter := to_unsigned i in
                 (* the [std::string mfilter] of line 198 hides the other *)
                 mfilter' <- any_cast_string (getValue p) ;;
                 ret (A := unit) (RetString mfilter') ;;
                 pure mfilter
             | None =>
                 throw (NotFound (In_func ": Could not get AMPID from the Master Flat Field Chunk Metadata."))
             end ;;
  if negb (filter =? mfilter)
  then throw (DomainError (In_func ": Chunk Exposure and Master Flat Field Chunk Exposure are not from the same FILTER."))
  else pure tt.

(** Lines 237-243, the inner loop: [k] columns are left in the row. *)
Fixpoint meanCols (k : nat) (masterChunkColAcc : Accessor) (n : Z) (sum : D)
  : Stmt (Z * D) :=
  match k with
  | O => pure (n, sum)
  | S k' =>
      v <- deref masterChunkColAcc ;;
      meanCols k' (nextCol masterChunkColAcc) (n + 1) (dadd sum v)
  end.

(** Lines 237-243, the outer loop: [k] rows are left. The row accessor is
    handed back as the loop leaves it. *)
Fixpoint meanRows (k mnumCols : nat) (masterChunkRowAcc : Accessor)
                  (n : Z) (sum : D) : Stmt (Accessor * Z * D) :=
  match k with
  | O => pure (masterChunkRowAcc, n, sum)
  | S k' =>
      '(n', sum') <- meanCols mnumCols masterChunkRowAcc n sum ;;
      meanRows k' mnumCols (nextRow masterChunkRowAcc) n' sum'
  end.

(** Lines 249-255, the inner and the outer loop. *)
Fixpoint sumSqCols (k : nat) (masterChunkColAcc : Accessor) (mu sumSq : D)
  : Stmt D :=
  match k with
  | O => pure sumSq
  | S k' =>
      v <- deref masterChunkColAcc ;;
      let val := dsub v mu in
      sumSqCols k' (nextCol masterChunkColAcc) mu (dadd sumSq (dmul val val))
  end.

Fixpoint sumSqRows (k mnumCols : nat) (masterChunkRowAcc : Accessor)
                   (mu sumSq : D) : Stmt (Accessor * D) :=
  match k with
  | O => pure (masterChunkRowAcc, sumSq)
  | S k' =>
      sumSq' <- sumSqCols mnumCols masterChunkRowAcc mu sumSq ;;
      sumSqRows k' mnumCols (nextRow masterChunkRowAcc) mu sumSq'
  end.

(** Lines 230-258: the number of elements, the mean and the standard
    deviation. One row accessor, built once, serves both passes. *)
Definition flatStatistics : Stmt (D * D) :=
  mnumCols <- master_getCols ;;
  mnumRows <- master_getRows ;;
  masterChunkRowAcc <- MaskedPixelAccessor_master ;;
  '(masterChunkRowAcc, n, sum) <-
     meanRows mnumRows mnumCols masterChunkRowAcc 0 dzero ;;
  let mu := ddiv sum (of_long n) in
  '(masterChunkRowAcc, sumSq) <-
     sumSqRows mnumRows mnumCols masterChunkRowAcc mu dzero ;;
  let sigma := dsqrt (ddiv sumSq (of_long n)) in
  pure (mu, sigma).

(** Lines 222-261, the else branch of the normalization: the statistics,
    then [masterChunkExposure /= mu]. *)
Definition divideByMean : Stmt unit :=
  '(mu, sigma) <- flatStatistics ;;
  master_div_scalar mu.

(** Lines 216-262: has the master flat been normalized? If not, divide it by
    its mean. *)
Definition normalizeMasterFlat (datasetPolicy : Policy) : Stmt unit :=
  d <- getDouble datasetPolicy "normalizeKey" ;;
  let normalizeKey := string_of_double d in
  isrNormalize <- chunkMetadata_findUnique normalizeKey ;;
  match isrNormalize with
  | Some _ =>
      TTrace 3 (In_func ": Master Flat Field Chunk Exposure has been normalized.")
  | None => divideByMean
  end.

(** Lines 266-282: scale the master flat and divide the Chunk Exposure by
    it. *)
Definition divideByMasterFlat (flatPolicy : Policy) : Stmt unit :=
  flatFieldScale <- getDouble flatPolicy "flatFieldScale" ;;
  stretchFactor <- getDouble flatPolicy "stretchFactor" ;;
  master_mul_scalar stretchFactor ;;
  sigClip <- getBool flatPolicy "sigClip" ;;
  sigClipVal <- getDouble flatPolicy "sigClipVal" ;;
  if to_bool flatFieldScale
  then master_mul_scalar flatFieldScale ;; chunk_div_master
  else chunk_div_master.

(** Lines 284-286: the provenance of the sub-stage. [setMetadata] stores
    the pointer the image already holds. *)
Definition recordProvenance : Stmt unit :=
  chunkMetadata_addProperty ("ISR_FLATCOR", AnyString "Complete").

(** The stages of the function after its checks, lines 216-292. *)
Definition normalizeAndCorrect (flatPolicy datasetPolicy : Policy)
  : Stmt unit :=
  normalizeMasterFlat datasetPolicy ;;
  divideByMasterFlat flatPolicy ;;
  recordProvenance ;;
  TTrace 7 "ISR sub-stageflatFieldCorrectChunkExposurecompleted successfully.".

(** The function, lines 72-294. *)
Definition flatFieldCorrectChunkExposure (isrPolicy datasetPolicy : Policy)
  : Stmt unit :=
  checkNotRunPreviously ;;
  checkSameSize ;;
  flatPolicy <- checkSamePixels isrPolicy ;;
  checkSameFilter ;;
  normalizeAndCorrect flatPolicy datasetPolicy.

(** ** What the specification calls the mean *)

Definition sumOf (l : list D) : D := fold_left dadd l dzero.

Definition meanOf (l : list D) : D :=
  ddiv (sumOf l) (of_long (Z.of_nat (List.length l))).

(** The sum of the squared deviations from [mu], on top of [sumSq]. *)
Definition addSqDev (mu : D) (l : list D) (sumSq : D) : D :=
  fold_left (fun acc v => dadd acc (dmul (dsub v mu) (dsub v mu))) l sumSq.

(** The standard deviation of the samples: the square root of the mean of
    the squared deviations from the mean. *)
Definition stddevOf (l : list D) : D :=
  dsqrt (ddiv (addSqDev (meanOf l) l dzero)
              (of_long (Z.of_nat (List.length l)))).

(** How many times a property of the given name was added. *)
Definition timesAdded (name : string) (evs : list Event) : nat :=
  List.length
    (filter (fun ev => match ev with
                       | AddedProperty n => String.eqb n name
                       | _ => false
                       end) evs).

(** Between [w] and [w'] the metadata of the Chunk Exposure was not touched
    and no "ISR_FLATCOR" property was added. *)
Definition provenanceKept (w w' : World) : Prop :=
  metadata (chunkExposure w') = metadata (chunkExposure w) /\
  timesAdded "ISR_FLATCOR" (events w') = timesAdded "ISR_FLATCOR" (events w).

(** The number of samples the master flat declares. *)
Definition sizeOf (w : World) : nat :=
  (getRows (masterChunkExposure w) * getCols (masterChunkExposure w))%nat.

(** The world after [masterChunkExposure /= mu] with the mean of the master
    flat for [mu], the reads of the two passes included. *)
Definition dividedByMean (w : World) : World :=
  let N := sizeOf w in
  let mu := meanOf (image (masterChunkExposure w)) in
  mkWorld (chunkExposure w)
          (setImage (masterChunkExposure w)
                    (map (fun p => ddiv p mu) (image (masterChunkExposure w))))
          (beyond w)
          (events w ++ map ReadPixel (seq 0 N) ++ map ReadPixel (seq N N)
                    ++ [ImageArith Master]).

(** An exposure whose sample and mask arrays have the size it declares. *)
Definition wellFormed (e : Exposure) : Prop :=
  List.length (image e) = (getRows e * getCols e)%nat /\
  List.length (mask e) = (getRows e * getCols e)%nat.

End Stage.

Arguments Any D : clear implicits.
Arguments Exposure D : clear implicits.
Arguments World D : clear implicits.
Arguments PolicyValue D : clear implicits.
Arguments Policy D : clear implicits.
Arguments Metadata D : clear implicits.
Arguments DataProperty D : clear implicits.
Arguments Stmt D : clear implicits.
Arguments Outcome D : clear implicits.
Arguments Next {D A} a w.
Arguments Return {D A} v w.
Arguments Throw {D A} e w.

(** ** Inputs to run the function on, in binary64 *)

(** The example of the specification: a 4x4 science image of 1000.0 and a
    4x4 master flat of 2.0, both from amplifier 1 and in filter 2. *)
Definition scienceMetadata : Metadata float :=
  [("AMPID", AnyInt 1); ("FILTER", AnyInt 2)].

Definition science4x4 : Exposure float :=
  mkExposure 4 4 (repeat 1000%float 16) (repeat 0 16) scienceMetadata.

Definition flat4x4 : Exposure float :=
  mkExposure 4 4 (repeat 2%float 16) (repeat 0 16) scienceMetadata.

Definition flatPolicy_example : Policy float :=
  [("chunkType", PString "amp");
   ("flatFieldScale", PDouble 0%float);
   ("stretchFactor", PDouble 1%float);
   ("sigClip", PBool false);
   ("sigClipVal", PDouble 3%float)].

Definition isrPolicy_example : Policy float :=
  [("flatPolicy", PPolicy flatPolicy_example)].

(** A dataset policy as the specification asks for it: the key is a
    string. *)
Definition datasetPolicy_string : Policy float :=
  [("normalizeKey", PString "IMRED_NF")].

(** A dataset policy [getDouble] accepts, and a conversion for it: every
    number names the key "IMRED_NF". *)
Definition datasetPolicy_double : Policy float :=
  [("normalizeKey", PDouble 1%float)].

Definition keyOfDouble (d : float) : string := "IMRED_NF".

(** The memory past the master flat holds zeros. *)
Definition zeros (i : nat) : float := 0%float.

Definition world (chunk master : Exposure float) : World float :=
  mkWorld chunk master zeros [].

(** A science image the sub-stage has already been run on. *)
Definition corrected4x4 : Exposure float :=
  setMetadata science4x4
    (addProperty ("ISR_FLATCOR", AnyString "Complete") scienceMetadata).

(** Master flats of another size, another amplifier, another filter. *)
Definition flat2x2 : Exposure float :=
  mkExposure 2 2 (repeat 2%float 4) (repeat 0 4) scienceMetadata.

Definition flat4x4_amp2 : Exposure float :=
  setMetadata flat4x4 [("AMPID", AnyInt 2); ("FILTER", AnyInt 2)].

Definition flat4x4_filter3 : Exposure float :=
  setMetadata flat4x4 [("AMPID", AnyInt 1); ("FILTER", AnyInt 3)].

(** A master flat that carries the normalization marker. *)
Definition flat4x4_normalized : Exposure float :=
  setMetadata flat4x4
    (addProperty ("IMRED_NF", AnyString "Complete") scienceMetadata).

(** A master flat that is zero everywhere. *)
Definition flatZero2x2 : Exposure float :=
  mkExposure 2 2 (repeat 0%float 4) (repeat 0 4) scienceMetadata.

(** A master flat that is 1.0 everywhere. *)
Definition flatOne4x4 : Exposure float :=
  mkExposure 4 4 (repeat 1%float 16) (repeat 0 16) scienceMetadata.

Definition science2x2 : Exposure float :=
  mkExposure 2 2 (repeat 1000%float 4) (repeat 0 4) scienceMetadata.

(** A master flat with spread: mean 2, standard deviation 1. *)
Definition flatSpread2x2 : Exposure float :=
  mkExposure 2 2 [1%float; 3%float; 1%float; 3%float] (repeat 0 4)
             scienceMetadata.

(** ** More inputs *)

(** A science image that is identified by its CCD only. *)
Definition scienceCcd4x4 : Exposure float :=
  setMetadata science4x4 [("CCDID", AnyInt 7); ("FILTER", AnyInt 2)].

(** A science image whose amplifier identifier is negative. *)
Definition scienceNegative4x4 : Exposure float :=
  setMetadata science4x4 [("AMPID", AnyInt (-1)); ("FILTER", AnyInt 2)].

(** A policy without its flat-field section. *)
Definition isrPolicy_empty : Policy float := [].

(** A policy whose flat-field section is empty. *)
Definition isrPolicy_noType : Policy float := [("flatPolicy", PPolicy [])].

(** A flat policy that stops after [stretchFactor]. *)
Definition flatPolicy_noClip : Policy float :=
  [("chunkType", PString "amp");
   ("flatFieldScale", PDouble 0%float);
   ("stretchFactor", PDouble 3%float)].

(** A flat policy without [stretchFactor]. *)
Definition flatPolicy_noStretch : Policy float :=
  [("chunkType", PString "amp");
   ("flatFieldScale", PDouble 0%float)].

(** A master flat of the size of [flat4x4] with other samples, another
    mask and no metadata. *)
Definition flat4x4_bare : Exposure float :=
  mkExposure 4 4 (repeat 5%float 16) (repeat 1 16) [].

(** A science image and a master flat with no FILTER entry. *)
Definition scienceNoFilter4x4 : Exposure float :=
  setMetadata science4x4 [("AMPID", AnyInt 1)].

(** A master flat whose FILTER is a name. *)
Definition flat4x4_filterName : Exposure float :=
  setMetadata flat4x4 [("AMPID", AnyInt 1); ("FILTER", AnyString "r")].



(** A master flat without "AMPID". *)
Definition flat4x4_noAmp : Exposure float :=
  setMetadata flat4x4 [("FILTER", AnyInt 2)].

(** Exposures with no rows. *)
Definition science0x4 : Exposure float :=
  mkExposure 4 0 [] [] scienceMetadata.

Definition flat0x4 : Exposure float :=
  mkExposure 4 0 [] [] scienceMetadata.

(** ** What a stage may change *)

(** [e'] is [e] but for the values of its samples: same size, as many
    samples, same mask, same metadata. *)
Definition sameButSamples {D : Type} (e e' : Exposure D) : Prop :=
  getCols e' = getCols e /\
  getRows e' = getRows e /\
  List.length (image e') = List.length (image e) /\
  mask e' = mask e /\
  metadata e' = metadata e.

(** The master flat after the normalization and the scaling of the
    correction: each sample divided by [mu], multiplied by [stretch], and by
    [scale] when that is not zero. *)
Definition scaledFlat {D : Type} `{Double D}
    (mu stretch scale : D) (samples : list D) : list D :=
  if to_bool scale
  then map (fun m => dmul (dmul (ddiv m mu) stretch) scale) samples
  else map (fun m => dmul (ddiv m mu) stretch) samples.

(** * Properties *)

Section Checks.

Context {D : Type} `{Double D}.
Variable string_of_double : D -> string.

(** ** The checks at entry *)

Lemma checkNotRunPreviously_found (w : World D) p :
  findUnique "ISR_FLATCOR" (metadata (chunkExposure w)) = Some p ->
  checkNotRunPreviously w
  = Throw (Runtime "Flat Field correction previously performed.") w.
Proof.
  intros Hp. unfold checkNotRunPreviously, bind, chunkMetadata_findUnique.
  rewrite Hp. reflexivity.
Qed.

Lemma checkNotRunPreviously_absent (w : World D) :
  findUnique "ISR_FLATCOR" (metadata (chunkExposure w)) = None ->
  checkNotRunPreviously w = Next tt w.
Proof.
  intros Hp. unfold checkNotRunPreviously, bind, chunkMetadata_findUnique.
  rewrite Hp. reflexivity.
Qed.

Lemma checkSameSize_differ (w : World D) :
  getCols (chunkExposure w) <> getCols (masterChunkExposure w) \/
  getRows (chunkExposure w) <> getRows (masterChunkExposure w) ->
  checkSameSize w
  = Throw (LengthError (In_func ": Chunk Exposure and Master Flat Field Chunk Exposure are not the same size.")) w.
Proof.
  intros Hd. unfold checkSameSize, bind, chunk_getCols, chunk_getRows,
    master_getCols, master_getRows.
  destruct (Nat.eqb_spec (getCols (chunkExposure w))
                         (getCols (masterChunkExposure w))) as [Hc | Hc];
    destruct (Nat.eqb_spec (getRows (chunkExposure w))
                           (getRows (masterChunkExposure w))) as [Hr | Hr];
    try reflexivity.
  destruct Hd; contradiction.
Qed.

Lemma checkSameSize_same (w : World D) :
  getCols (chunkExposure w) = getCols (masterChunkExposure w) ->
  getRows (chunkExposure w) = getRows (masterChunkExposure w) ->
  checkSameSize w = Next tt w.
Proof.
  intros Hc Hr. unfold checkSameSize, bind, chunk_getCols, chunk_getRows,
    master_getCols, master_getRows.
  rewrite Hc, Hr, !Nat.eqb_refl. reflexivity.
Qed.

(** C1. A science image whose metadata holds the "ISR_FLATCOR" marker makes
    the function throw [Runtime], the AlreadyProcessed failure, and the two
    exposures and the record of pixel accesses are what they were. *)
Theorem already_processed_no_mutation
    (isrPolicy datasetPolicy : Policy D) (w : World D) p :
  findUnique "ISR_FLATCOR" (metadata (chunkExposure w)) = Some p ->
  exists e,
    flatFieldCorrectChunkExposure string_of_double isrPolicy datasetPolicy w
    = Throw e w /\
    errorKind e = AlreadyProcessed.
Proof.
  intros Hp. eexists. split.
  - unfold flatFieldCorrectChunkExposure. unfold bind at 1.
    rewrite (checkNotRunPreviously_found w p Hp). reflexivity.
  - reflexivity.
Qed.

(** C2, amended. When the science image does not hold the marker and the
    two exposures differ in columns or in rows, the function throws
    [LengthError], the DimensionMismatch failure; the state it throws in is
    the one it was called in, so no pixel was read or written. *)
Theorem size_mismatch_before_any_pixel
    (isrPolicy datasetPolicy : Policy D) (w : World D) :
  findUnique "ISR_FLATCOR" (metadata (chunkExposure w)) = None ->
  getCols (chunkExposure w) <> getCols (masterChunkExposure w) \/
  getRows (chunkExposure w) <> getRows (masterChunkExposure w) ->
  exists e,
    flatFieldCorrectChunkExposure string_of_double isrPolicy datasetPolicy w
    = Throw e w /\
    errorKind e = DimensionMismatch.
Proof.
  intros Hp Hd. eexists. split.
  - unfold flatFieldCorrectChunkExposure. unfold bind at 1.
    rewrite (checkNotRunPreviously_absent w Hp). unfold bind at 1.
    rewrite (checkSameSize_differ w Hd). reflexivity.
  - reflexivity.
Qed.

End Checks.

Section Validation.

Context {D : Type} `{Double D}.
Variable string_of_double : D -> string.

(** ** The region check *)

(** With an integer identifier in the metadata of the Chunk Exposure, the
    check returns it at once (lines 120 and 143): the master flat is not
    looked at. *)
Lemma checkSameId_returns (key : string) (w : World D) name i :
  findUnique key (metadata (chunkExposure w)) = Some (name, AnyInt i) ->
  checkSameId key w = Return (RetUInt (to_unsigned i)) w.
Proof.
  intros Hf. unfold checkSameId. unfold bind at 1.
  unfold chunkMetadata_findUnique. rewrite Hf. reflexivity.
Qed.

Lemma checkSameId_missing (key : string) (w : World D) :
  findUnique key (metadata (chunkExposure w)) = None ->
  exists e, checkSameId key w = Throw e w /\ errorKind e = MetadataNotFound.
Proof.
  intros Hf. eexists. split.
  - unfold checkSameId. unfold bind at 1.
    unfold chunkMetadata_findUnique. rewrite Hf. reflexivity.
  - reflexivity.
Qed.

(** The check never hands control to the statement after it, and never
    throws [RangeError]: it returns, or fails on the first lookup. *)
Lemma checkSameId_stops (key : string) (w : World D) :
  match checkSameId key w with
  | Next _ _ => False
  | Return _ w' => w' = w
  | Throw e w' =>
      w' = w /\ (errorKind e = MetadataNotFound \/ errorKind e = CastFailure)
  end.
Proof.
  unfold checkSameId. unfold bind at 1. unfold chunkMetadata_findUnique.
  destruct (findUnique key (metadata (chunkExposure w))) as [[name v] | ].
  - destruct v; cbn; auto.
  - cbn. auto.
Qed.

Lemma checkSamePixels_stops (isrPolicy : Policy D) (w : World D) :
  match checkSamePixels isrPolicy w with
  | Next _ _ => False
  | Return _ w' => w' = w
  | Throw e w' =>
      w' = w /\
      (errorKind e = MetadataNotFound \/ errorKind e = CastFailure \/
       errorKind e = ConfigNotFound)
  end.
Proof.
  unfold checkSamePixels. unfold bind at 1. unfold getPolicy.
  destruct (policyLookup "flatPolicy" isrPolicy) as [[s | d | b | q] | ];
    try (cbn; auto; fail).
  unfold pure at 1. unfold bind at 1. unfold getString.
  destruct (policyLookup "chunkType" q) as [[s | d | b | q'] | ];
    try (cbn; auto; fail).
  unfold pure at 1. cbn [assigned]. unfold bind at 1.
  pose proof (checkSameId_stops "AMPID" w) as Hs.
  destruct (checkSameId "AMPID" w); intuition.
Qed.

(** ** The filter check *)

(** Whatever the two FILTER entries are, the check throws: [NotFound] when
    one is missing, [bad_any_cast] otherwise, since line 198 asks for a string
    where line 197 has just read an integer. It never throws [DomainError]
    and never lets control through. *)
Lemma checkSameFilter_stops (w : World D) :
  match checkSameFilter w with
  | Next _ _ => False
  | Return _ _ => False
  | Throw e w' =>
      w' = w /\ (errorKind e = MetadataNotFound \/ e = bad_any_cast)
  end.
Proof.
  unfold checkSameFilter. unfold bind at 1. unfold chunkMetadata_findUnique.
  destruct (findUnique "FILTER" (metadata (chunkExposure w)))
    as [[name v] | ]; [ | cbn; auto ].
  destruct v as [i | d | s]; try (cbn; auto; fail).
  unfold bind at 1. cbn [getValue snd any_cast_int]. unfold bind at 1.
  unfold pure at 1. unfold pure at 1. unfold bind at 1.
  replace ((if isalpha (to_unsigned i)
            then TTrace 3 (In_func ": Filter Name: %s") else pure tt) w)
    with (Next (D := D) tt w) by (destruct (isalpha (to_unsigned i)); reflexivity).
  unfold bind at 1. unfold masterChunkMetadata_findUnique.
  destruct (findUnique "FILTER" (metadata (masterChunkExposure w)))
    as [[mname mv] | ]; [ | cbn; auto ].
  destruct mv as [j | d | s]; try (cbn; auto; fail).
  unfold bind at 1. cbn [getValue snd any_cast_int]. unfold bind at 1.
  unfold pure at 1. unfold pure at 1. unfold bind at 1.
  replace ((if isalpha (to_unsigned j)
            then TTrace 3 (In_func ": Filter Name: %s") else pure tt) w)
    with (Next (D := D) tt w) by (destruct (isalpha (to_unsigned j)); reflexivity).
  cbn. auto.
Qed.

(** ** The function as a whole *)

(** No call gets past the checks: the function throws or returns from one
    of them, with both exposures as they were. *)
Lemma flatFieldCorrectChunkExposure_stops
    (isrPolicy datasetPolicy : Policy D) (w : World D) :
  match flatFieldCorrectChunkExposure string_of_double isrPolicy
                                      datasetPolicy w with
  | Next _ _ => False
  | Return _ w' => w' = w
  | Throw e w' =>
      w' = w /\ errorKind e <> RegionMismatch /\ errorKind e <> FilterMismatch
  end.
Proof.
  unfold flatFieldCorrectChunkExposure. unfold bind at 1.
  destruct (findUnique "ISR_FLATCOR" (metadata (chunkExposure w))) as [p | ] eqn:Hp.
  - rewrite (checkNotRunPreviously_found w p Hp). repeat split; discriminate.
  - rewrite (checkNotRunPreviously_absent w Hp). unfold bind at 1.
    destruct (Nat.eq_dec (getCols (chunkExposure w))
                         (getCols (masterChunkExposure w))) as [Hc | Hc];
      [ destruct (Nat.eq_dec (getRows (chunkExposure w))
                         (getRows (masterChunkExposure w))) as [Hr | Hr] | ].
    + rewrite (checkSameSize_same w Hc Hr). unfold bind at 1.
      pose proof (checkSamePixels_stops isrPolicy w) as Hs.
      destruct (checkSamePixels isrPolicy w) as [a w' | v w' | e w'].
      * contradiction.
      * exact Hs.
      * destruct Hs as [-> Hs]. repeat split; intros Hk; rewrite Hk in Hs;
          destruct Hs as [Hs | [Hs | Hs]]; discriminate.
    + rewrite (checkSameSize_differ w (or_intror Hr)). repeat split; discriminate.
    + rewrite (checkSameSize_differ w (or_introl Hc)). repeat split; discriminate.
Qed.

End Validation.

Section Statistics.

Context {D : Type} `{Double D}.

(** ** The two passes over the master flat *)

Lemma withEvents_nil (w : World D) : withEvents w [] = w.
Proof. destruct w. unfold withEvents. cbn. now rewrite app_nil_r. Qed.

Lemma withEvents_app (w : World D) a b :
  withEvents (withEvents w a) b = withEvents w (a ++ b).
Proof. unfold withEvents. cbn. now rewrite app_assoc. Qed.

Lemma sampleAt_withEvents (w : World D) evs i :
  sampleAt (withEvents w evs) i = sampleAt w i.
Proof. reflexivity. Qed.

(** The inner loop of the first pass reads the [k] samples from the accessor
    on, in order, adding each to the sum and one to the count. *)
Lemma meanCols_reads k : forall (acc : Accessor) n sum (w : World D),
  meanCols k acc n sum w
  = Next (n + Z.of_nat k,
          fold_left dadd (map (sampleAt w) (seq (offset acc) k)) sum)
         (withEvents w (map ReadPixel (seq (offset acc) k))).
Proof.
  induction k as [ | k IH]; intros acc n sum w.
  - cbn. unfold pure. now rewrite withEvents_nil, Z.add_0_r.
  - cbn [meanCols]. unfold bind, deref. rewrite IH.
    cbn [nextCol offset seq map fold_left].
    rewrite withEvents_app. cbn [app].
    replace (n + 1 + Z.of_nat k) with (n + Z.of_nat (S k)) by lia.
    reflexivity.
Qed.

(** The outer loop: [k] rows of [cols] samples, one after the other, and
    the row accessor ends [k] rows further. *)
Lemma meanRows_reads k : forall cols (acc : Accessor) n sum (w : World D),
  stride acc = cols ->
  meanRows k cols acc n sum w
  = Next (mkAccessor cols (offset acc + k * cols), n + Z.of_nat (k * cols),
          fold_left dadd (map (sampleAt w) (seq (offset acc) (k * cols))) sum)
         (withEvents w (map ReadPixel (seq (offset acc) (k * cols)))).
Proof.
  induction k as [ | k IH]; intros cols acc n sum w Hs.
  - cbn. unfold pure. rewrite withEvents_nil, Z.add_0_r, Nat.add_0_r.
    destruct acc; cbn in *; now subst.
  - cbn [meanRows]. unfold bind. rewrite meanCols_reads.
    rewrite IH by (cbn; exact Hs).
    cbn [nextRow offset]. rewrite Hs, withEvents_app.
    replace (S k * cols)%nat with (cols + k * cols)%nat by lia.
    rewrite seq_app, !map_app, fold_left_app.
    replace (offset acc + cols + k * cols)%nat
      with (offset acc + (cols + k * cols))%nat by lia.
    replace (n + Z.of_nat cols + Z.of_nat (k * cols))
      with (n + Z.of_nat (cols + k * cols)) by lia.
    reflexivity.
Qed.

Lemma sumSqCols_reads k : forall (acc : Accessor) mu sumSq (w : World D),
  sumSqCols k acc mu sumSq w
  = Next (addSqDev mu (map (sampleAt w) (seq (offset acc) k)) sumSq)
         (withEvents w (map ReadPixel (seq (offset acc) k))).
Proof.
  induction k as [ | k IH]; intros acc mu sumSq w.
  - cbn. unfold pure. now rewrite withEvents_nil.
  - cbn [sumSqCols]. unfold bind, deref. rewrite IH.
    cbn [nextCol offset seq map]. rewrite withEvents_app. reflexivity.
Qed.

Lemma addSqDev_app mu (l1 l2 : list D) sumSq :
  addSqDev mu (l1 ++ l2) sumSq = addSqDev mu l2 (addSqDev mu l1 sumSq).
Proof. unfold addSqDev. apply fold_left_app. Qed.

Lemma sumSqRows_reads k : forall cols (acc : Accessor) mu sumSq (w : World D),
  stride acc = cols ->
  sumSqRows k cols acc mu sumSq w
  = Next (mkAccessor cols (offset acc + k * cols),
          addSqDev mu (map (sampleAt w) (seq (offset acc) (k * cols))) sumSq)
         (withEvents w (map ReadPixel (seq (offset acc) (k * cols)))).
Proof.
  induction k as [ | k IH]; intros cols acc mu sumSq w Hs.
  - cbn. unfold pure. rewrite withEvents_nil, Nat.add_0_r.
    destruct acc; cbn in *; now subst.
  - cbn [sumSqRows]. unfold bind. rewrite sumSqCols_reads.
    rewrite IH by (cbn; exact Hs).
    cbn [nextRow offset]. rewrite Hs, withEvents_app.
    replace (S k * cols)%nat with (cols + k * cols)%nat by lia.
    rewrite seq_app, !map_app, addSqDev_app.
    replace (offset acc + cols + k * cols)%nat
      with (offset acc + (cols + k * cols))%nat by lia.
    reflexivity.
Qed.

(** The statistics, whatever the master flat: the mean is taken over the
    first [sizeOf w] samples from the origin, the deviations over the
    [sizeOf w] samples that follow them. *)
Lemma flatStatistics_reads (w : World D) :
  let N := sizeOf w in
  let mu := ddiv (fold_left dadd (map (sampleAt w) (seq 0 N)) dzero)
                 (of_long (Z.of_nat N)) in
  flatStatistics w
  = Next (mu,
          dsqrt (ddiv (addSqDev mu (map (sampleAt w) (seq N N)) dzero)
                      (of_long (Z.of_nat N))))
         (withEvents w (map ReadPixel (seq 0 N) ++ map ReadPixel (seq N N))).
Proof.
  intros N mu. unfold flatStatistics.
  unfold bind at 1. unfold master_getCols.
  unfold bind at 1. unfold master_getRows.
  unfold bind at 1. unfold MaskedPixelAccessor_master.
  unfold bind at 1. rewrite meanRows_reads by reflexivity.
  cbn [offset Nat.add Z.add]. fold N.
  unfold bind at 1. rewrite sumSqRows_reads by reflexivity.
  cbn [offset Nat.add]. fold N. unfold pure.
  rewrite withEvents_app. reflexivity.
Qed.

End Statistics.

Section Normalization.

Context {D : Type} `{Double D}.
Variable string_of_double : D -> string.

(** ** Well-formed master flats *)

Lemma map_nth_error_seq (l : list D) (past : nat -> D) :
  map (fun i => match nth_error l i with Some v => v | None => past i end)
      (seq 0 (List.length l)) = l.
Proof.
  revert past. induction l as [ | x l IH]; intros past; [reflexivity | ].
  cbn [List.length seq map nth_error]. f_equal.
  rewrite <- seq_shift, map_map. cbn [nth_error].
  apply (IH (fun i => past (S i))).
Qed.

(** The first pass reads the samples of the image. *)
Lemma samples_of_image (w : World D) :
  wellFormed (masterChunkExposure w) ->
  map (sampleAt w) (seq 0 (sizeOf w)) = image (masterChunkExposure w).
Proof.
  intros [Hi _]. unfold sizeOf. rewrite <- Hi. unfold sampleAt.
  apply map_nth_error_seq.
Qed.

(** From the end of the image on there is no sample of it. *)
Lemma no_sample_past_image (w : World D) a :
  wellFormed (masterChunkExposure w) ->
  (sizeOf w <= a)%nat ->
  nth_error (image (masterChunkExposure w)) a = None.
Proof.
  intros [Hi _] Ha. apply nth_error_None. unfold sizeOf in Ha. lia.
Qed.

(** The second pass reads what lies past the image. *)
Lemma samples_past_image (w : World D) :
  wellFormed (masterChunkExposure w) ->
  map (sampleAt w) (seq (sizeOf w) (sizeOf w))
  = map (beyond w) (seq (sizeOf w) (sizeOf w)).
Proof.
  intros Hw. apply map_ext_in. intros a Ha. apply in_seq in Ha.
  unfold sampleAt. rewrite no_sample_past_image by (auto || lia).
  reflexivity.
Qed.

Lemma mean_of_image (w : World D) :
  wellFormed (masterChunkExposure w) ->
  ddiv (fold_left dadd (map (sampleAt w) (seq 0 (sizeOf w))) dzero)
       (of_long (Z.of_nat (sizeOf w)))
  = meanOf (image (masterChunkExposure w)).
Proof.
  intros Hw. rewrite samples_of_image by exact Hw.
  unfold meanOf, sumOf. destruct Hw as [Hi _]. unfold sizeOf.
  now rewrite Hi.
Qed.

(** ** Dividing by the mean *)

(** Lines 222-261 on any well-formed master flat: each sample is divided by
    the mean of the samples, nothing else changes, and control goes on.
    There is no test on the mean. *)
Lemma divideByMean_divides (w : World D) :
  wellFormed (masterChunkExposure w) ->
  divideByMean w = Next tt (dividedByMean w).
Proof.
  intros Hw. unfold divideByMean. unfold bind at 1.
  rewrite flatStatistics_reads. cbv zeta. rewrite (mean_of_image w Hw).
  unfold master_div_scalar, dividedByMean, withEvents. cbn.
  now rewrite <- !app_assoc.
Qed.


(** The normalization stage with a key [getDouble] can read: the key is
    looked up in the metadata of the Chunk Exposure. *)
Lemma normalizeMasterFlat_absent (datasetPolicy : Policy D) (w : World D) d :
  policyLookup "normalizeKey" datasetPolicy = Some (PDouble d) ->
  findUnique (string_of_double d) (metadata (chunkExposure w)) = None ->
  normalizeMasterFlat string_of_double datasetPolicy w = divideByMean w.
Proof.
  intros Hk Hf. unfold normalizeMasterFlat. unfold bind at 1.
  unfold getDouble. rewrite Hk. unfold pure at 1. unfold bind at 1.
  unfold chunkMetadata_findUnique. rewrite Hf. reflexivity.
Qed.

Lemma normalizeMasterFlat_present (datasetPolicy : Policy D) (w : World D) d p :
  policyLookup "normalizeKey" datasetPolicy = Some (PDouble d) ->
  findUnique (string_of_double d) (metadata (chunkExposure w)) = Some p ->
  normalizeMasterFlat string_of_double datasetPolicy w = Next tt w.
Proof.
  intros Hk Hf. unfold normalizeMasterFlat. unfold bind at 1.
  unfold getDouble. rewrite Hk. unfold pure at 1. unfold bind at 1.
  unfold chunkMetadata_findUnique. rewrite Hf. reflexivity.
Qed.

Lemma normalizeMasterFlat_mistyped (datasetPolicy : Policy D) (w : World D) :
  (forall d, policyLookup "normalizeKey" datasetPolicy <> Some (PDouble d)) ->
  normalizeMasterFlat string_of_double datasetPolicy w
  = Throw (PolicyError "normalizeKey") w.
Proof.
  intros Hk. unfold normalizeMasterFlat. unfold bind at 1. unfold getDouble.
  destruct (policyLookup "normalizeKey" datasetPolicy) as [[s | d | b | q] | ];
    try reflexivity.
  now destruct (Hk d).
Qed.

End Normalization.

Section Stages.

Context {D : Type} `{Double D}.
Variable string_of_double : D -> string.


(** C7, amended. The normalization stage has no failure for a mean that is
    zero or not finite: with a key [getDouble] can read and no marker found,
    it goes on for every well-formed master flat, whatever the mean of its
    samples, and leaves each sample divided by that mean. *)
Theorem normalization_divides_whatever_the_mean
    (datasetPolicy : Policy D) (w : World D) d :
  policyLookup "normalizeKey" datasetPolicy = Some (PDouble d) ->
  findUnique (string_of_double d) (metadata (chunkExposure w)) = None ->
  wellFormed (masterChunkExposure w) ->
  exists w',
    normalizeMasterFlat string_of_double datasetPolicy w = Next tt w' /\
    image (masterChunkExposure w')
    = map (fun p => ddiv p (meanOf (image (masterChunkExposure w))))
          (image (masterChunkExposure w)).
Proof.
  intros Hk Hf Hw. exists (dividedByMean w). split.
  - rewrite (normalizeMasterFlat_absent string_of_double _ w d Hk Hf).
    apply divideByMean_divides, Hw.
  - reflexivity.
Qed.

(** C10, amended. On a well-formed master flat of [N] samples, the first
    pass reads the samples at offsets 0 to N-1 and the second pass, whose
    row accessor
    was not put back at the origin, the N offsets from N on. Each offset of
    the second pass is outside the ones the first pass went through and
    outside the image, and sigma is computed from what lies there: the
    deviations are those of the memory past the image, not of the samples
    of the master flat, so that any other master flat of this size and
    mean, however its samples spread, gets the same sigma. *)
Theorem second_pass_reads_past_the_image (w : World D) :
  wellFormed (masterChunkExposure w) ->
  exists mu sigma,
    flatStatistics w
    = Next (mu, sigma)
           (withEvents w (map ReadPixel (seq 0 (sizeOf w)) ++
                          map ReadPixel (seq (sizeOf w) (sizeOf w)))) /\
    mu = meanOf (image (masterChunkExposure w)) /\
    sigma = dsqrt (ddiv (addSqDev mu (map (beyond w)
                                          (seq (sizeOf w) (sizeOf w))) dzero)
                        (of_long (Z.of_nat (sizeOf w)))) /\
    (forall a, In a (seq (sizeOf w) (sizeOf w)) ->
               ~ In a (seq 0 (sizeOf w)) /\
               nth_error (image (masterChunkExposure w)) a = None) /\
    (forall w2 : World D,
        wellFormed (masterChunkExposure w2) ->
        sizeOf w2 = sizeOf w ->
        (forall a, beyond w2 a = beyond w a) ->
        meanOf (image (masterChunkExposure w2)) = mu ->
        exists w2', flatStatistics w2 = Next (mu, sigma) w2').
Proof.
  intros Hw. do 2 eexists. split; [ | split; [ | split; [ | split ] ] ].
  - rewrite flatStatistics_reads. cbv zeta.
    rewrite (samples_past_image w Hw), (mean_of_image w Hw). reflexivity.
  - reflexivity.
  - reflexivity.
  - intros a Ha. apply in_seq in Ha. split.
    + rewrite in_seq. lia.
    + apply no_sample_past_image; [exact Hw | lia].
  - intros w2 Hw2 Hsize Hpast Hmean. eexists.
    rewrite flatStatistics_reads. cbv zeta.
    rewrite (samples_past_image w2 Hw2), (mean_of_image w2 Hw2).
    rewrite Hmean, Hsize.
    rewrite (map_ext _ _ Hpast). reflexivity.
Qed.

(** ** The correction *)

Lemma divideImage_nth (a b : list D) : forall i x y,
  nth_error a i = Some x -> nth_error b i = Some y ->
  nth_error (divideImage a b) i = Some (ddiv x y).
Proof.
  revert b. induction a as [ | x0 a IH]; intros b i x y Ha Hb.
  - destruct i; discriminate.
  - destruct b as [ | y0 b]; [destruct i; discriminate | ].
    destruct i as [ | i]; cbn in *.
    + congruence.
    + now apply IH.
Qed.

(** C8. With the four parameters in the flat policy, the correction stage
    goes on from any state it is reached in, and leaves the master flat
    multiplied by [stretchFactor], then by [flatFieldScale] exactly when
    that is not zero, and each sample of the science image divided by the
    sample of this master flat at the same place. Masks and metadata are
    as before. *)
Theorem correction_scales_then_divides
    (flatPolicy : Policy D) (w : World D) scale stretch clip clipVal :
  policyLookup "flatFieldScale" flatPolicy = Some (PDouble scale) ->
  policyLookup "stretchFactor" flatPolicy = Some (PDouble stretch) ->
  policyLookup "sigClip" flatPolicy = Some (PBool clip) ->
  policyLookup "sigClipVal" flatPolicy = Some (PDouble clipVal) ->
  exists w',
    divideByMasterFlat flatPolicy w = Next tt w' /\
    image (masterChunkExposure w')
    = (if to_bool scale
       then map (fun p => dmul (dmul p stretch) scale)
                (image (masterChunkExposure w))
       else map (fun p => dmul p stretch) (image (masterChunkExposure w))) /\
    (forall i s m,
        nth_error (image (chunkExposure w)) i = Some s ->
        nth_error (image (masterChunkExposure w')) i = Some m ->
        nth_error (image (chunkExposure w')) i = Some (ddiv s m)) /\
    List.length (image (chunkExposure w'))
    = List.length (image (chunkExposure w)) /\
    mask (chunkExposure w') = mask (chunkExposure w) /\
    mask (masterChunkExposure w') = mask (masterChunkExposure w) /\
    metadata (chunkExposure w') = metadata (chunkExposure w) /\
    metadata (masterChunkExposure w') = metadata (masterChunkExposure w).
Proof.
  intros Hscale Hstretch Hclip HclipVal.
  unfold divideByMasterFlat, bind, getDouble, getBool, master_mul_scalar.
  rewrite Hscale, Hstretch. cbn [pure]. rewrite Hclip, HclipVal. cbn [pure].
  destruct (to_bool scale); cbn; eexists; (split; [reflexivity | ]); cbn;
    rewrite ?map_map; (split; [reflexivity | ]);
    (split; [intros i s m; apply divideImage_nth | ]);
    (split; [ | repeat split ]).
  all: match goal with
       | |- List.length (divideImage ?a ?b) = _ =>
           generalize b; induction a as [ | ? ? IH]; intros [ | ? ?]; cbn;
           try reflexivity; now rewrite IH
       end.
Qed.

End Stages.

Section Provenance.

Context {D : Type} `{Double D}.
Variable string_of_double : D -> string.

(** ** The provenance record *)

Lemma timesAdded_app name (a b : list Event) :
  timesAdded name (a ++ b) = (timesAdded name a + timesAdded name b)%nat.
Proof. unfold timesAdded. now rewrite filter_app, length_app. Qed.

Lemma timesAdded_reads name (l : list nat) :
  timesAdded name (map ReadPixel l) = 0%nat.
Proof. induction l; [reflexivity | exact IHl]. Qed.

Lemma provenanceKept_refl (w : World D) : provenanceKept w w.
Proof. split; reflexivity. Qed.

Lemma provenanceKept_trans (w1 w2 w3 : World D) :
  provenanceKept w1 w2 -> provenanceKept w2 w3 -> provenanceKept w1 w3.
Proof. intros [A1 B1] [A2 B2]. split; congruence. Qed.

Lemma divideByMean_provenance (w : World D) :
  exists w', divideByMean w = Next tt w' /\ provenanceKept w w'.
Proof.
  unfold divideByMean. unfold bind at 1. rewrite flatStatistics_reads.
  cbv zeta. unfold master_div_scalar. eexists. split; [reflexivity | ].
  split; cbn -[timesAdded]; [reflexivity | ].
  rewrite !timesAdded_app, !timesAdded_reads. cbn. lia.
Qed.

Lemma normalizeMasterFlat_provenance (datasetPolicy : Policy D) (w : World D) :
  match normalizeMasterFlat string_of_double datasetPolicy w with
  | Next _ w' => provenanceKept w w'
  | Throw _ w' => provenanceKept w w'
  | Return _ _ => False
  end.
Proof.
  unfold normalizeMasterFlat. unfold bind at 1. unfold getDouble.
  destruct (policyLookup "normalizeKey" datasetPolicy) as [[s | d | b | q] | ];
    try apply provenanceKept_refl.
  unfold pure at 1. unfold bind at 1. unfold chunkMetadata_findUnique.
  destruct (findUnique (string_of_double d) (metadata (chunkExposure w))).
  - apply provenanceKept_refl.
  - destruct (divideByMean_provenance w) as (w' & -> & Hk). exact Hk.
Qed.

Lemma divideByMasterFlat_provenance (flatPolicy : Policy D) (w : World D) :
  match divideByMasterFlat flatPolicy w with
  | Next _ w' => provenanceKept w w'
  | Throw _ w' => provenanceKept w w'
  | Return _ _ => False
  end.
Proof.
  unfold divideByMasterFlat, bind, getDouble, getBool, master_mul_scalar,
    chunk_div_master.
  destruct (policyLookup "flatFieldScale" flatPolicy) as [[s | d | b | q] | ];
    try apply provenanceKept_refl.
  cbn [pure].
  destruct (policyLookup "stretchFactor" flatPolicy) as [[s | d' | b | q] | ];
    try apply provenanceKept_refl.
  cbn [pure].
  destruct (policyLookup "sigClip" flatPolicy) as [[s | d'' | b | q] | ];
    try (split; cbn -[timesAdded]; [reflexivity | rewrite timesAdded_app; cbn; lia]).
  cbn [pure].
  destruct (policyLookup "sigClipVal" flatPolicy) as [[s | d'' | b' | q] | ];
    try (split; cbn -[timesAdded]; [reflexivity | rewrite timesAdded_app; cbn; lia]).
  cbn [pure].
  destruct (to_bool d); split; cbn -[timesAdded]; try reflexivity;
    rewrite !timesAdded_app; cbn; lia.
Qed.

(** The stages after the checks, taken on their own: when they run to
    their end, the metadata of the science image is what it was with the
    entry "ISR_FLATCOR" = "Complete" after it, added once; when they throw,
    the metadata is what it was and nothing was added; they have no
    [return]. And when the function throws, nothing was added either. *)
Theorem provenance_written_once_on_success
    (isrPolicy flatPolicy datasetPolicy : Policy D) (w : World D) :
  match normalizeAndCorrect string_of_double flatPolicy datasetPolicy w with
  | Next _ w' =>
      metadata (chunkExposure w')
      = metadata (chunkExposure w) ++ [("ISR_FLATCOR", AnyString "Complete")] /\
      timesAdded "ISR_FLATCOR" (events w')
      = S (timesAdded "ISR_FLATCOR" (events w))
  | Throw _ w' => provenanceKept w w'
  | Return _ _ => False
  end /\
  match flatFieldCorrectChunkExposure string_of_double isrPolicy
                                      datasetPolicy w with
  | Throw _ w' => provenanceKept w w'
  | _ => True
  end.
Proof.
  split.
  - unfold normalizeAndCorrect. unfold bind at 1.
    pose proof (normalizeMasterFlat_provenance datasetPolicy w) as H1.
    destruct (normalizeMasterFlat string_of_double datasetPolicy w)
      as [[] w1 | v w1 | e w1]; [ | exact H1 | exact H1 ].
    unfold bind at 1.
    pose proof (divideByMasterFlat_provenance flatPolicy w1) as H2.
    destruct (divideByMasterFlat flatPolicy w1)
      as [[] w2 | v w2 | e w2];
      [ | exact H2 | exact (provenanceKept_trans _ _ _ H1 H2) ].
    destruct (provenanceKept_trans _ _ _ H1 H2) as [Hm He].
    cbn -[timesAdded]. rewrite Hm, timesAdded_app, He. cbn.
    split; [reflexivity | lia].
  - pose proof (flatFieldCorrectChunkExposure_stops string_of_double
                  isrPolicy datasetPolicy w) as Hs.
    destruct (flatFieldCorrectChunkExposure string_of_double isrPolicy
                datasetPolicy w) as [a w' | v w' | e w']; try exact I.
    destruct Hs as [-> _]. apply provenanceKept_refl.
Qed.

End Provenance.

(** * The function run on the example inputs *)

Lemma already_processed_no_mutation_witness :
  findUnique "ISR_FLATCOR"
             (metadata (chunkExposure (world corrected4x4 flat4x4)))
  = Some ("ISR_FLATCOR", AnyString "Complete") /\
  exists e,
    flatFieldCorrectChunkExposure keyOfDouble isrPolicy_example
                                  datasetPolicy_string
                                  (world corrected4x4 flat4x4)
    = Throw e (world corrected4x4 flat4x4) /\
    errorKind e = AlreadyProcessed.
Proof.
  split; [reflexivity | ].
  apply (already_processed_no_mutation keyOfDouble isrPolicy_example
           datasetPolicy_string (world corrected4x4 flat4x4)
           ("ISR_FLATCOR", AnyString "Complete")).
  reflexivity.
Defined.

(** A science image that holds the marker, with a master flat of another
    size: the failure is the one of the marker, not of the size. *)
Lemma size_mismatch_on_processed_image :
  getCols (chunkExposure (world corrected4x4 flat2x2))
  <> getCols (masterChunkExposure (world corrected4x4 flat2x2)) /\
  flatFieldCorrectChunkExposure keyOfDouble isrPolicy_example
                                datasetPolicy_string
                                (world corrected4x4 flat2x2)
  = Throw (Runtime "Flat Field correction previously performed.")
          (world corrected4x4 flat2x2) /\
  errorKind (Runtime "Flat Field correction previously performed.")
  <> DimensionMismatch.
Proof.
  split; [ | split ].
  - cbn. discriminate.
  - reflexivity.
  - discriminate.
Qed.

Lemma size_mismatch_before_any_pixel_witness :
  findUnique "ISR_FLATCOR"
             (metadata (chunkExposure (world science4x4 flat2x2))) = None /\
  (getCols (chunkExposure (world science4x4 flat2x2))
   <> getCols (masterChunkExposure (world science4x4 flat2x2)) \/
   getRows (chunkExposure (world science4x4 flat2x2))
   <> getRows (masterChunkExposure (world science4x4 flat2x2))) /\
  exists e,
    flatFieldCorrectChunkExposure keyOfDouble isrPolicy_example
                                  datasetPolicy_string
                                  (world science4x4 flat2x2)
    = Throw e (world science4x4 flat2x2) /\
    errorKind e = DimensionMismatch.
Proof.
  assert (Hd : getCols (chunkExposure (world science4x4 flat2x2))
               <> getCols (masterChunkExposure (world science4x4 flat2x2)))
    by (cbn; discriminate).
  split; [reflexivity | ]. split; [left; exact Hd | ].
  apply (size_mismatch_before_any_pixel keyOfDouble isrPolicy_example
           datasetPolicy_string (world science4x4 flat2x2)).
  - reflexivity.
  - left. exact Hd.
Defined.

(** C3. With chunkType "amp", the science image from amplifier 1 and the
    master flat from amplifier 2, the function throws nothing: it returns
    the identifier of the science image from line 120. With equal
    identifiers it returns there too, and does not reach the filter
    check. *)
Theorem differing_AMPID_returns_the_identifier :
  findUnique "AMPID" (metadata (chunkExposure (world science4x4 flat4x4_amp2)))
  = Some ("AMPID", AnyInt 1) /\
  findUnique "AMPID"
             (metadata (masterChunkExposure (world science4x4 flat4x4_amp2)))
  = Some ("AMPID", AnyInt 2) /\
  flatFieldCorrectChunkExposure keyOfDouble isrPolicy_example
                                datasetPolicy_string
                                (world science4x4 flat4x4_amp2)
  = Return (RetUInt 1) (world science4x4 flat4x4_amp2) /\
  flatFieldCorrectChunkExposure keyOfDouble isrPolicy_example
                                datasetPolicy_string
                                (world science4x4 flat4x4)
  = Return (RetUInt 1) (world science4x4 flat4x4).
Proof. repeat split. Qed.

(** C4. With the science image in filter 2 and the master flat in filter 3,
    the filter check throws [bad_any_cast] from line 198, not [DomainError];
    it throws the same with both in filter 2; and the function, run on the
    two filters, has returned from line 120 before the check. *)
Theorem differing_FILTER_is_not_reported :
  findUnique "FILTER"
             (metadata (chunkExposure (world science4x4 flat4x4_filter3)))
  = Some ("FILTER", AnyInt 2) /\
  findUnique "FILTER"
             (metadata (masterChunkExposure (world science4x4 flat4x4_filter3)))
  = Some ("FILTER", AnyInt 3) /\
  checkSameFilter (world science4x4 flat4x4_filter3)
  = Throw bad_any_cast (world science4x4 flat4x4_filter3) /\
  checkSameFilter (world science4x4 flat4x4)
  = Throw bad_any_cast (world science4x4 flat4x4) /\
  flatFieldCorrectChunkExposure keyOfDouble isrPolicy_example
                                datasetPolicy_string
                                (world science4x4 flat4x4_filter3)
  = Return (RetUInt 1) (world science4x4 flat4x4_filter3).
Proof. repeat split. Qed.

(** C5. With the key a string, as the specification has it, the
    normalization stage fails on [getDouble]. With a key [getDouble] reads,
    a master flat that carries the marker is divided by its mean all the
    same, from 2.0 to 1.0, since the marker is looked for on the science
    image. *)
Theorem normalization_marker_sought_on_science_image :
  normalizeMasterFlat keyOfDouble datasetPolicy_string
                      (world science4x4 flat4x4)
  = Throw (PolicyError "normalizeKey") (world science4x4 flat4x4) /\
  findUnique "IMRED_NF" (metadata flat4x4_normalized)
  = Some ("IMRED_NF", AnyString "Complete") /\
  exists w',
    normalizeMasterFlat keyOfDouble datasetPolicy_double
                        (world science4x4 flat4x4_normalized)
    = Next tt w' /\
    image (masterChunkExposure w') = repeat 1%float 16.
Proof.
  split; [reflexivity | ]. split; [reflexivity | ].
  eexists. split; [vm_compute; reflexivity | ].
  vm_compute. reflexivity.
Qed.



(** The same flat through the normalization stage: its mean is zero, no
    failure is raised, and the samples that come out are not numbers. *)
Lemma zero_flat_is_divided_by_zero :
  meanOf (image flatZero2x2) = 0%float /\
  exists w',
    normalizeMasterFlat keyOfDouble datasetPolicy_double
                        (world science2x2 flatZero2x2)
    = Next tt w' /\
    forallb PrimFloat.is_nan (image (masterChunkExposure w')) = true.
Proof.
  split; [vm_compute; reflexivity | ].
  eexists. split; vm_compute; reflexivity.
Qed.

Lemma normalization_divides_whatever_the_mean_witness :
  policyLookup "normalizeKey" datasetPolicy_double = Some (PDouble 1%float) /\
  findUnique (keyOfDouble 1%float)
             (metadata (chunkExposure (world science2x2 flatZero2x2))) = None /\
  wellFormed (masterChunkExposure (world science2x2 flatZero2x2)) /\
  exists w',
    normalizeMasterFlat keyOfDouble datasetPolicy_double
                        (world science2x2 flatZero2x2)
    = Next tt w' /\
    image (masterChunkExposure w')
    = map (fun p => (p / 0)%float) (repeat 0%float 4).
Proof.
  assert (Hw : wellFormed (masterChunkExposure (world science2x2 flatZero2x2)))
    by (split; reflexivity).
  split; [reflexivity | ]. split; [reflexivity | ]. split; [exact Hw | ].
  destruct (normalization_divides_whatever_the_mean keyOfDouble
              datasetPolicy_double (world science2x2 flatZero2x2) 1%float
              eq_refl eq_refl Hw) as (w' & Hrun & Himage).
  exists w'. split; [exact Hrun | ]. rewrite Himage. reflexivity.
Defined.

(** The example of the specification: 1000.0 everywhere over 1.0
    everywhere, with stretchFactor 1.0 and flatFieldScale 0, is 1000.0
    everywhere. *)
Lemma correction_scales_then_divides_witness :
  policyLookup "flatFieldScale" flatPolicy_example = Some (PDouble 0%float) /\
  policyLookup "stretchFactor" flatPolicy_example = Some (PDouble 1%float) /\
  policyLookup "sigClip" flatPolicy_example = Some (PBool false) /\
  policyLookup "sigClipVal" flatPolicy_example = Some (PDouble 3%float) /\
  exists w',
    divideByMasterFlat flatPolicy_example (world science4x4 flatOne4x4)
    = Next tt w' /\
    image (masterChunkExposure w') = repeat 1%float 16 /\
    forall i s,
      nth_error (image science4x4) i = Some s ->
      nth_error (image (chunkExposure w')) i = Some 1000%float.
Proof.
  repeat (split; [reflexivity | ]).
  destruct (correction_scales_then_divides flatPolicy_example
              (world science4x4 flatOne4x4) 0%float 1%float false 3%float
              eq_refl eq_refl eq_refl eq_refl)
    as (w' & Hrun & Hmaster & Hpixel & _).
  exists w'. split; [exact Hrun | ].
  assert (Hm : image (masterChunkExposure w') = repeat 1%float 16)
    by (rewrite Hmaster; reflexivity).
  split; [exact Hm | ].
  intros i s Hs.
  assert (Hi : (i < 16)%nat).
  { change 16%nat with (List.length (image science4x4)).
    apply nth_error_Some. rewrite Hs. discriminate. }
  assert (Hs' : s = 1000%float).
  { apply nth_error_In in Hs. apply (repeat_spec _ _ _ Hs). }
  rewrite (Hpixel i s 1%float).
  - subst s. reflexivity.
  - exact Hs.
  - rewrite Hm. rewrite nth_error_repeat by exact Hi. reflexivity.
Defined.

(** A master flat of mean 2 and standard deviation 1, with zeros after it
    in memory: sigma comes out as 2. *)
Lemma second_pass_reads_past_the_image_witness :
  wellFormed (masterChunkExposure (world science2x2 flatSpread2x2)) /\
  stddevOf (image flatSpread2x2) = 1%float /\
  exists sigma w',
    flatStatistics (world science2x2 flatSpread2x2)
    = Next (2%float, sigma) w' /\
    sigma = 2%float /\
    events w' = map ReadPixel [0; 1; 2; 3; 4; 5; 6; 7]%nat.
Proof.
  assert (Hw : wellFormed (masterChunkExposure
                             (world science2x2 flatSpread2x2)))
    by (split; reflexivity).
  split; [exact Hw | ]. split; [vm_compute; reflexivity | ].
  destruct (second_pass_reads_past_the_image
              (world science2x2 flatSpread2x2) Hw)
    as (mu & sigma & Hrun & Hmu & Hsigma & _ & _).
  exists sigma. eexists. split; [ | split ].
  - rewrite Hrun, Hmu. reflexivity.
  - rewrite Hsigma, Hmu. vm_compute. reflexivity.
  - reflexivity.
Defined.

(** The example of the specification through the stages after the checks:
    the master flat goes from 2.0 to 1.0, the science image stays at 1000.0,
    and its metadata gains the entry, added once. *)
Lemma provenance_written_once_on_success_witness :
  exists w',
    normalizeAndCorrect keyOfDouble flatPolicy_example datasetPolicy_double
                        (world science4x4 flat4x4)
    = Next tt w' /\
    image (masterChunkExposure w') = repeat 1%float 16 /\
    image (chunkExposure w') = repeat 1000%float 16 /\
    metadata (chunkExposure w')
    = scienceMetadata ++ [("ISR_FLATCOR", AnyString "Complete")] /\
    timesAdded "ISR_FLATCOR" (events w') = 1%nat.
Proof.
  pose proof (provenance_written_once_on_success keyOfDouble
                isrPolicy_example flatPolicy_example datasetPolicy_double
                (world science4x4 flat4x4)) as [Hs _].
  assert (E : exists w',
             normalizeAndCorrect keyOfDouble flatPolicy_example
                                 datasetPolicy_double
                                 (world science4x4 flat4x4)
             = Next tt w' /\
             image (masterChunkExposure w') = repeat 1%float 16 /\
             image (chunkExposure w') = repeat 1000%float 16).
  { eexists. split; [vm_compute; reflexivity | ].
    split; vm_compute; reflexivity. }
  destruct E as (w' & E & Hm & Hc). rewrite E in Hs.
  destruct Hs as [Hmd Hn].
  exists w'. repeat split; assumption.
Defined.

(** * More on the checks *)

Section EntryPoint.

Context {D : Type} `{Double D}.

Lemma to_unsigned_range (i : Z) : 0 <= to_unsigned i < 2 ^ 32.
Proof. unfold to_unsigned. apply Z.mod_pos_bound. reflexivity. Qed.

(** The region check with its two policy lookups done: whatever string
    [chunkType] holds, what follows is the AMPID check. *)
Lemma checkSamePixels_is_AMPID_check
    (isrPolicy flatPolicy : Policy D) (chunkType : string) (w : World D) :
  policyLookup "flatPolicy" isrPolicy = Some (PPolicy flatPolicy) ->
  policyLookup "chunkType" flatPolicy = Some (PString chunkType) ->
  checkSamePixels isrPolicy w
  = bind (checkSameId "AMPID") (fun _ => pure flatPolicy) w.
Proof.
  intros Hp Ht. unfold checkSamePixels. unfold bind at 1. unfold getPolicy.
  rewrite Hp. unfold pure at 1. unfold bind at 1. unfold getString.
  rewrite Ht. reflexivity.
Qed.

(** The function with its first two checks passed is the region check,
    which never lets control through. *)
Lemma stage_after_two_checks (string_of_double : D -> string)
    (isrPolicy datasetPolicy : Policy D) (w : World D) :
  findUnique "ISR_FLATCOR" (metadata (chunkExposure w)) = None ->
  getCols (chunkExposure w) = getCols (masterChunkExposure w) ->
  getRows (chunkExposure w) = getRows (masterChunkExposure w) ->
  forall o : Outcome D unit,
    match checkSamePixels isrPolicy w with
    | Next _ _ => False
    | Return v w' => o = Return v w'
    | Throw e w' => o = Throw e w'
    end ->
    flatFieldCorrectChunkExposure string_of_double isrPolicy datasetPolicy w
    = o.
Proof.
  intros Hp Hc Hr o Ho. unfold flatFieldCorrectChunkExposure.
  unfold bind at 1. rewrite (checkNotRunPreviously_absent w Hp).
  unfold bind at 1. rewrite (checkSameSize_same w Hc Hr).
  unfold bind at 1.
  destruct (checkSamePixels isrPolicy w); [contradiction | | ]; now subst.
Qed.

Lemma stage_with_marker (string_of_double : D -> string)
    (isrPolicy datasetPolicy : Policy D) (w : World D) p :
  findUnique "ISR_FLATCOR" (metadata (chunkExposure w)) = Some p ->
  flatFieldCorrectChunkExposure string_of_double isrPolicy datasetPolicy w
  = Throw (Runtime "Flat Field correction previously performed.") w.
Proof.
  intros Hp. unfold flatFieldCorrectChunkExposure. unfold bind at 1.
  now rewrite (checkNotRunPreviously_found w p Hp).
Qed.

Lemma stage_with_other_size (string_of_double : D -> string)
    (isrPolicy datasetPolicy : Policy D) (w : World D) :
  findUnique "ISR_FLATCOR" (metadata (chunkExposure w)) = None ->
  getCols (chunkExposure w) <> getCols (masterChunkExposure w) \/
  getRows (chunkExposure w) <> getRows (masterChunkExposure w) ->
  flatFieldCorrectChunkExposure string_of_double isrPolicy datasetPolicy w
  = Throw (LengthError (In_func ": Chunk Exposure and Master Flat Field Chunk Exposure are not the same size.")) w.
Proof.
  intros Hp Hd. unfold flatFieldCorrectChunkExposure. unfold bind at 1.
  rewrite (checkNotRunPreviously_absent w Hp). unfold bind at 1.
  now rewrite (checkSameSize_differ w Hd).
Qed.

(** The region check with a policy it cannot read. *)
Lemma checkSamePixels_no_section (isrPolicy : Policy D) (w : World D) :
  (forall q, policyLookup "flatPolicy" isrPolicy <> Some (PPolicy q)) ->
  checkSamePixels isrPolicy w = Throw (PolicyError "flatPolicy") w.
Proof.
  intros Hp. unfold checkSamePixels. unfold bind at 1. unfold getPolicy.
  destruct (policyLookup "flatPolicy" isrPolicy) as [[s | d | b | q] | ];
    try reflexivity.
  now destruct (Hp q).
Qed.

Lemma checkSamePixels_no_chunkType
    (isrPolicy flatPolicy : Policy D) (w : World D) :
  policyLookup "flatPolicy" isrPolicy = Some (PPolicy flatPolicy) ->
  (forall t, policyLookup "chunkType" flatPolicy <> Some (PString t)) ->
  checkSamePixels isrPolicy w = Throw (PolicyError "chunkType") w.
Proof.
  intros Hp Ht. unfold checkSamePixels. unfold bind at 1. unfold getPolicy.
  rewrite Hp. unfold pure at 1. unfold bind at 1. unfold getString.
  destruct (policyLookup "chunkType" flatPolicy) as [[s | d | b | q] | ];
    try reflexivity.
  now destruct (Ht s).
Qed.

(** The AMPID check, by what the science image holds under "AMPID". *)
Lemma checkSameId_outcome (key : string) (w : World D) :
  (exists n, checkSameId key w = Return (RetUInt n) w /\ 0 <= n < 2 ^ 32) \/
  (exists e, checkSameId key w = Throw e w /\
             (errorKind e = MetadataNotFound \/ errorKind e = CastFailure)).
Proof.
  destruct (findUnique key (metadata (chunkExposure w)))
    as [[name [i | d | s']] | ] eqn:Hf.
  - left. exists (to_unsigned i).
    split; [exact (checkSameId_returns key w name i Hf) | ].
    apply to_unsigned_range.
  - right. exists bad_any_cast. split; [ | cbn; auto].
    unfold checkSameId, bind, chunkMetadata_findUnique. now rewrite Hf.
  - right. exists bad_any_cast. split; [ | cbn; auto].
    unfold checkSameId, bind, chunkMetadata_findUnique. now rewrite Hf.
  - right. destruct (checkSameId_missing key w Hf) as (e & He & Hk).
    exists e. split; [exact He | auto].
Qed.

Lemma checkSameId_same_chunk (key : string) (w1 w2 : World D) :
  chunkExposure w1 = chunkExposure w2 ->
  (exists v, checkSameId key w1 = Return v w1 /\
             checkSameId key w2 = Return v w2) \/
  (exists e, checkSameId key w1 = Throw e w1 /\
             checkSameId key w2 = Throw e w2).
Proof.
  intros Hc.
  destruct (findUnique key (metadata (chunkExposure w1)))
    as [[name [i | d | s']] | ] eqn:Hf;
    pose proof Hf as Hf2; rewrite Hc in Hf2.
  - left. exists (RetUInt (to_unsigned i)).
    split; [exact (checkSameId_returns key w1 name i Hf)
           | exact (checkSameId_returns key w2 name i Hf2)].
  - right. exists bad_any_cast.
    split; unfold checkSameId, bind, chunkMetadata_findUnique;
      [now rewrite Hf | now rewrite Hf2].
  - right. exists bad_any_cast.
    split; unfold checkSameId, bind, chunkMetadata_findUnique;
      [now rewrite Hf | now rewrite Hf2].
  - right. eexists.
    split; unfold checkSameId, bind, chunkMetadata_findUnique;
      [rewrite Hf | rewrite Hf2]; reflexivity.
Qed.

Lemma policy_section_cases (isrPolicy : Policy D) :
  (forall q, policyLookup "flatPolicy" isrPolicy <> Some (PPolicy q)) \/
  (exists q, policyLookup "flatPolicy" isrPolicy = Some (PPolicy q) /\
             ((forall t, policyLookup "chunkType" q <> Some (PString t)) \/
              exists t, policyLookup "chunkType" q = Some (PString t))).
Proof.
  destruct (policyLookup "flatPolicy" isrPolicy) as [[s | d | b | q] | ];
    try (left; intros q'; discriminate).
  right. exists q. split; [reflexivity | ].
  destruct (policyLookup "chunkType" q) as [[s | d | b | q'] | ];
    try (left; intros t; discriminate).
  right. exists s. reflexivity.
Qed.

(** What the region check comes to, read off the policy and the metadata
    of the science image alone. *)
Lemma checkSamePixels_outcome (isrPolicy : Policy D) (w : World D) :
  (exists n, checkSamePixels isrPolicy w = Return (RetUInt n) w /\
             0 <= n < 2 ^ 32) \/
  (exists e, checkSamePixels isrPolicy w = Throw e w /\
             (errorKind e = ConfigNotFound \/
              errorKind e = MetadataNotFound \/
              errorKind e = CastFailure)).
Proof.
  destruct (policy_section_cases isrPolicy)
    as [Hp | (q & Hp & [Ht | (t & Ht)])].
  - right. eexists. split; [apply checkSamePixels_no_section, Hp | cbn; auto].
  - right. eexists.
    split; [apply (checkSamePixels_no_chunkType _ q w Hp Ht) | cbn; auto].
  - rewrite (checkSamePixels_is_AMPID_check _ q t w Hp Ht). unfold bind.
    destruct (checkSameId_outcome "AMPID" w)
      as [(n & -> & Hn) | (e & -> & He)].
    + left. exists n. split; [reflexivity | exact Hn].
    + right. exists e. split; [reflexivity | tauto].
Qed.

Lemma checkSamePixels_same_chunk (isrPolicy : Policy D) (w1 w2 : World D) :
  chunkExposure w1 = chunkExposure w2 ->
  (exists v, checkSamePixels isrPolicy w1 = Return v w1 /\
             checkSamePixels isrPolicy w2 = Return v w2) \/
  (exists e, checkSamePixels isrPolicy w1 = Throw e w1 /\
             checkSamePixels isrPolicy w2 = Throw e w2).
Proof.
  intros Hc.
  destruct (policy_section_cases isrPolicy)
    as [Hp | (q & Hp & [Ht | (t & Ht)])].
  - right. eexists. split; apply checkSamePixels_no_section, Hp.
  - right. eexists.
    split; apply (checkSamePixels_no_chunkType _ q _ Hp Ht).
  - rewrite !(checkSamePixels_is_AMPID_check _ q t _ Hp Ht). unfold bind.
    destruct (checkSameId_same_chunk "AMPID" w1 w2 Hc)
      as [(v & -> & ->) | (e & -> & ->)].
    + left. exists v. split; reflexivity.
    + right. exists e. split; reflexivity.
Qed.

End EntryPoint.

Section EntryPointProperties.

Context {D : Type} `{Double D}.
Variable string_of_double : D -> string.

(** X1. Every call ends in one of the checks with the state it was called
    in: the function returns an [unsigned int] below 2^32 (an identifier,
    never the corrected exposure), or throws for the marker, the size, the
    policy, a missing entry or a cast. It never runs to its end and never
    throws [RangeError] or [DomainError]. *)
Theorem stage_stops_at_the_checks
    (isrPolicy datasetPolicy : Policy D) (w : World D) :
  (exists n,
      flatFieldCorrectChunkExposure string_of_double isrPolicy
                                    datasetPolicy w
      = Return (RetUInt n) w /\ 0 <= n < 2 ^ 32) \/
  (exists e,
      flatFieldCorrectChunkExposure string_of_double isrPolicy
                                    datasetPolicy w
      = Throw e w /\
      (errorKind e = AlreadyProcessed \/ errorKind e = DimensionMismatch \/
       errorKind e = ConfigNotFound \/ errorKind e = MetadataNotFound \/
       errorKind e = CastFailure)).
Proof.
  destruct (findUnique "ISR_FLATCOR" (metadata (chunkExposure w)))
    as [p | ] eqn:Hp.
  { right. exists (Runtime "Flat Field correction previously performed.").
    split; [ | left; reflexivity].
    exact (stage_with_marker _ _ _ w p Hp). }
  assert (Hsize :
            (getCols (chunkExposure w) = getCols (masterChunkExposure w) /\
             getRows (chunkExposure w) = getRows (masterChunkExposure w)) \/
            (getCols (chunkExposure w) <> getCols (masterChunkExposure w) \/
             getRows (chunkExposure w) <> getRows (masterChunkExposure w)))
    by lia.
  destruct Hsize as [[Hc Hr] | Hd].
  - destruct (checkSamePixels_outcome isrPolicy w)
      as [(n & Hn & Hrange) | (e & He & Hk)].
    + left. exists n. split; [ | exact Hrange].
      apply stage_after_two_checks; try assumption. now rewrite Hn.
    + right. exists e. split; [ | tauto].
      apply stage_after_two_checks; try assumption. now rewrite He.
  - right.
    exists (LengthError (In_func ": Chunk Exposure and Master Flat Field Chunk Exposure are not the same size.")).
    split; [ | right; left; reflexivity].
    exact (stage_with_other_size _ _ _ w Hp Hd).
Qed.

(** X2. With [chunkType] "amp" in the flat policy, what a call comes to is
    decided by the science image, the size of the master flat and the ISR
    policy: with these the same, two calls return the same value or throw
    the same exception, whatever the samples, the mask and the metadata of
    the master flat and whatever the dataset policy. *)
Theorem stage_reads_only_the_science_image_and_the_sizes
    (string_of_double' : D -> string)
    (isrPolicy flatPolicy datasetPolicy datasetPolicy' : Policy D)
    (w1 w2 : World D) :
  policyLookup "flatPolicy" isrPolicy = Some (PPolicy flatPolicy) ->
  policyLookup "chunkType" flatPolicy = Some (PString "amp") ->
  chunkExposure w1 = chunkExposure w2 ->
  getCols (masterChunkExposure w1) = getCols (masterChunkExposure w2) ->
  getRows (masterChunkExposure w1) = getRows (masterChunkExposure w2) ->
  (exists v,
      flatFieldCorrectChunkExposure string_of_double isrPolicy
                                    datasetPolicy w1 = Return v w1 /\
      flatFieldCorrectChunkExposure string_of_double' isrPolicy
                                    datasetPolicy' w2 = Return v w2) \/
  (exists e,
      flatFieldCorrectChunkExposure string_of_double isrPolicy
                                    datasetPolicy w1 = Throw e w1 /\
      flatFieldCorrectChunkExposure string_of_double' isrPolicy
                                    datasetPolicy' w2 = Throw e w2).
Proof.
  intros Hsec Htype Hchunk Hcols Hrows.
  destruct (findUnique "ISR_FLATCOR" (metadata (chunkExposure w1)))
    as [p | ] eqn:Hp; pose proof Hp as Hp2; rewrite Hchunk in Hp2.
  { right. eexists.
    split; [exact (stage_with_marker _ _ _ w1 p Hp)
           | exact (stage_with_marker _ _ _ w2 p Hp2)]. }
  assert (Hsize :
            (getCols (chunkExposure w1) = getCols (masterChunkExposure w1) /\
             getRows (chunkExposure w1) = getRows (masterChunkExposure w1)) \/
            (getCols (chunkExposure w1) <> getCols (masterChunkExposure w1) \/
             getRows (chunkExposure w1) <> getRows (masterChunkExposure w1)))
    by lia.
  destruct Hsize as [[Hc Hr] | Hd].
  - assert (Hc2 : getCols (chunkExposure w2)
                  = getCols (masterChunkExposure w2)) by congruence.
    assert (Hr2 : getRows (chunkExposure w2)
                  = getRows (masterChunkExposure w2)) by congruence.
    destruct (checkSamePixels_same_chunk isrPolicy w1 w2 Hchunk)
      as [(v & H1 & H2) | (e & H1 & H2)].
    + left. exists v.
      split; apply stage_after_two_checks; try assumption;
        [now rewrite H1 | now rewrite H2].
    + right. exists e.
      split; apply stage_after_two_checks; try assumption;
        [now rewrite H1 | now rewrite H2].
  - assert (Hd2 : getCols (chunkExposure w2)
                  <> getCols (masterChunkExposure w2) \/
                  getRows (chunkExposure w2)
                  <> getRows (masterChunkExposure w2))
      by (rewrite <- Hchunk, <- Hcols, <- Hrows; exact Hd).
    right. eexists.
    split; [exact (stage_with_other_size _ _ _ w1 Hp Hd)
           | exact (stage_with_other_size _ _ _ w2 Hp2 Hd2)].
Qed.

(** X3. Past the marker and the size checks, with [chunkType] "amp" in the
    flat policy, a science image with an integer "AMPID" makes the function
    return that integer as an [unsigned int], that is modulo 2^32, with
    nothing changed and whatever the master flat holds. *)
Theorem stage_returns_the_AMPID_of_the_science_image
    (isrPolicy flatPolicy datasetPolicy : Policy D) (w : World D) name i :
  findUnique "ISR_FLATCOR" (metadata (chunkExposure w)) = None ->
  getCols (chunkExposure w) = getCols (masterChunkExposure w) ->
  getRows (chunkExposure w) = getRows (masterChunkExposure w) ->
  policyLookup "flatPolicy" isrPolicy = Some (PPolicy flatPolicy) ->
  policyLookup "chunkType" flatPolicy = Some (PString "amp") ->
  findUnique "AMPID" (metadata (chunkExposure w)) = Some (name, AnyInt i) ->
  flatFieldCorrectChunkExposure string_of_double isrPolicy datasetPolicy w
  = Return (RetUInt (i mod 2 ^ 32)) w.
Proof.
  intros Hp Hc Hr Hsec Htype Hamp.
  apply stage_after_two_checks; try assumption.
  rewrite (checkSamePixels_is_AMPID_check _ _ _ w Hsec Htype). unfold bind.
  now rewrite (checkSameId_returns "AMPID" w name i Hamp).
Qed.

(** X4. Past the marker and the size checks, with [chunkType] "amp" in the
    flat policy, a science image without a unique "AMPID" entry makes the
    function throw [NotFound] for AMPID from the Chunk Metadata, with
    nothing changed; another identifier such as "CCDID" does not stand in
    for it. *)
Theorem stage_wants_the_AMPID_of_the_science_image
    (isrPolicy flatPolicy datasetPolicy : Policy D) (w : World D) :
  findUnique "ISR_FLATCOR" (metadata (chunkExposure w)) = None ->
  getCols (chunkExposure w) = getCols (masterChunkExposure w) ->
  getRows (chunkExposure w) = getRows (masterChunkExposure w) ->
  policyLookup "flatPolicy" isrPolicy = Some (PPolicy flatPolicy) ->
  policyLookup "chunkType" flatPolicy = Some (PString "amp") ->
  findUnique "AMPID" (metadata (chunkExposure w)) = None ->
  flatFieldCorrectChunkExposure string_of_double isrPolicy datasetPolicy w
  = Throw (NotFound (In_func ": Could not get AMPID from the Chunk Metadata."))
          w.
Proof.
  intros Hp Hc Hr Hsec Htype Hamp.
  apply stage_after_two_checks; try assumption.
  rewrite (checkSamePixels_is_AMPID_check _ _ _ w Hsec Htype).
  unfold checkSameId, chunkMetadata_findUnique, bind. now rewrite Hamp.
Qed.

(** X5. Past the marker and the size checks, an ISR policy without a
    "flatPolicy" section, or whose section has no string "chunkType", makes
    the function fail on that lookup before any metadata identifier is
    read, with nothing changed. *)
Theorem stage_fails_on_unreadable_policy
    (isrPolicy datasetPolicy : Policy D) (w : World D) :
  findUnique "ISR_FLATCOR" (metadata (chunkExposure w)) = None ->
  getCols (chunkExposure w) = getCols (masterChunkExposure w) ->
  getRows (chunkExposure w) = getRows (masterChunkExposure w) ->
  ((forall q, policyLookup "flatPolicy" isrPolicy <> Some (PPolicy q)) ->
   flatFieldCorrectChunkExposure string_of_double isrPolicy datasetPolicy w
   = Throw (PolicyError "flatPolicy") w) /\
  (forall q,
      policyLookup "flatPolicy" isrPolicy = Some (PPolicy q) ->
      (forall t, policyLookup "chunkType" q <> Some (PString t)) ->
      flatFieldCorrectChunkExposure string_of_double isrPolicy datasetPolicy w
      = Throw (PolicyError "chunkType") w).
Proof.
  intros Hp Hc Hr. split.
  - intros Hsec. apply stage_after_two_checks; try assumption.
    now rewrite (checkSamePixels_no_section isrPolicy w Hsec).
  - intros q Hsec Htype. apply stage_after_two_checks; try assumption.
    now rewrite (checkSamePixels_no_chunkType isrPolicy q w Hsec Htype).
Qed.

(** ** The filter check on its own *)

(** X6. When both images have a unique "FILTER" entry, the filter check
    throws [bad_any_cast] with nothing changed, whatever the two values and
    their types are, equal or not: an entry that is not an integer fails
    the cast of line 172 or 185, and an integer one fails the cast to a
    string of line 198. *)
Theorem filter_check_with_both_entries (w : World D) p q :
  findUnique "FILTER" (metadata (chunkExposure w)) = Some p ->
  findUnique "FILTER" (metadata (masterChunkExposure w)) = Some q ->
  checkSameFilter w = Throw bad_any_cast w.
Proof.
  intros Hp Hq. destruct p as [pn pv], q as [qn qv].
  unfold checkSameFilter, bind, chunkMetadata_findUnique,
    masterChunkMetadata_findUnique.
  rewrite Hp. destruct pv as [i | d | s]; try reflexivity.
  cbn [getValue snd any_cast_int pure].
  destruct (isalpha (to_unsigned i)); cbn [TTrace pure];
    rewrite Hq; destruct qv as [j | d | s]; try reflexivity;
    cbn [getValue snd any_cast_int pure];
    destruct (isalpha (to_unsigned j)); reflexivity.
Qed.

(** X7. The filter check reports a missing entry in the order it reads:
    without a unique "FILTER" on the science image it throws [NotFound] for
    the Chunk Metadata; with an integer there and none on the master flat,
    [NotFound] for the Master Flat Field Chunk Metadata. Nothing is
    changed. *)
Theorem filter_check_with_an_entry_missing (w : World D) :
  (findUnique "FILTER" (metadata (chunkExposure w)) = None ->
   checkSameFilter w
   = Throw (NotFound (In_func ": Could not get FILTER from the Chunk Metadata."))
           w) /\
  (forall name i,
      findUnique "FILTER" (metadata (chunkExposure w))
      = Some (name, AnyInt i) ->
      findUnique "FILTER" (metadata (masterChunkExposure w)) = None ->
      checkSameFilter w
      = Throw (NotFound (In_func ": Could not get FILTER from the Master Flat Field Chunk Metadata."))
              w).
Proof.
  split.
  - intros Hp. unfold checkSameFilter, bind, chunkMetadata_findUnique.
    now rewrite Hp.
  - intros name i Hp Hq.
    unfold checkSameFilter, bind, chunkMetadata_findUnique,
      masterChunkMetadata_findUnique.
    rewrite Hp. cbn [getValue snd any_cast_int pure].
    destruct (isalpha (to_unsigned i)); cbn [TTrace pure];
      now rewrite Hq.
Qed.

End EntryPointProperties.

(** * More on the stages after the checks *)

Section StageFrames.

Context {D : Type} `{Double D}.
Variable string_of_double : D -> string.

Lemma sameButSamples_refl (e : Exposure D) : sameButSamples e e.
Proof. repeat split. Qed.

Lemma sameButSamples_trans (e1 e2 e3 : Exposure D) :
  sameButSamples e1 e2 -> sameButSamples e2 e3 -> sameButSamples e1 e3.
Proof.
  intros (A1 & B1 & C1 & D1 & E1) (A2 & B2 & C2 & D2 & E2).
  repeat split; congruence.
Qed.

Lemma sameButSamples_wellFormed (e e' : Exposure D) :
  sameButSamples e e' -> wellFormed e -> wellFormed e'.
Proof.
  intros (A & B & C & M & _) [Hi Hm]. unfold wellFormed.
  rewrite A, B, C, M. split; assumption.
Qed.

Lemma length_divideImage (a b : list D) :
  List.length (divideImage a b) = List.length a.
Proof.
  revert b. induction a as [ | x a IH]; intros [ | y b]; cbn;
    try reflexivity.
  now rewrite IH.
Qed.

(** Lines 222-261 on any master flat, well-formed or not. *)
Lemma divideByMean_frame (w : World D) :
  exists w',
    divideByMean w = Next tt w' /\
    chunkExposure w' = chunkExposure w /\
    sameButSamples (masterChunkExposure w) (masterChunkExposure w') /\
    beyond w' = beyond w.
Proof.
  unfold divideByMean. unfold bind at 1. rewrite flatStatistics_reads.
  cbv zeta. unfold master_div_scalar. eexists. split; [reflexivity | ].
  cbn. repeat split; cbn; rewrite ?length_map; reflexivity.
Qed.

Lemma normalizeMasterFlat_frame (datasetPolicy : Policy D) (w : World D) :
  match normalizeMasterFlat string_of_double datasetPolicy w with
  | Next _ w' | Throw _ w' =>
      chunkExposure w' = chunkExposure w /\
      sameButSamples (masterChunkExposure w) (masterChunkExposure w') /\
      beyond w' = beyond w
  | Return _ _ => False
  end.
Proof.
  unfold normalizeMasterFlat. unfold bind at 1. unfold getDouble.
  destruct (policyLookup "normalizeKey" datasetPolicy) as [[s | d | b | q] | ];
    try (cbn; repeat split; fail).
  unfold pure at 1. unfold bind at 1. unfold chunkMetadata_findUnique.
  destruct (findUnique (string_of_double d) (metadata (chunkExposure w))).
  - cbn. repeat split.
  - destruct (divideByMean_frame w) as (w' & -> & Hf). exact Hf.
Qed.

Lemma divideByMasterFlat_frame (flatPolicy : Policy D) (w : World D) :
  match divideByMasterFlat flatPolicy w with
  | Next _ w' | Throw _ w' =>
      sameButSamples (chunkExposure w) (chunkExposure w') /\
      sameButSamples (masterChunkExposure w) (masterChunkExposure w') /\
      beyond w' = beyond w
  | Return _ _ => False
  end.
Proof.
  unfold divideByMasterFlat, bind, getDouble, getBool, master_mul_scalar,
    chunk_div_master.
  destruct (policyLookup "flatFieldScale" flatPolicy) as [[s | d | b | q] | ];
    try (cbn; repeat split; fail).
  cbn [pure].
  destruct (policyLookup "stretchFactor" flatPolicy) as [[s | d' | b | q] | ];
    try (cbn; repeat split; fail).
  cbn [pure].
  destruct (policyLookup "sigClip" flatPolicy) as [[s | d'' | b | q] | ];
    try (cbn; repeat split; cbn; rewrite ?length_map; reflexivity).
  cbn [pure].
  destruct (policyLookup "sigClipVal" flatPolicy) as [[s | d'' | b' | q] | ];
    try (cbn; repeat split; cbn; rewrite ?length_map; reflexivity).
  cbn [pure].
  destruct (to_bool d); cbn; repeat split; cbn;
    rewrite ?length_divideImage, ?length_map; reflexivity.
Qed.

(** X8. The normalization stage changes nothing but the values of the
    samples of the master flat, however it ends: the science image, the
    size, mask and metadata of the master flat and the number of its samples
    are what they were, and it has no [return]. In particular it writes no
    normalization marker. *)
Theorem normalization_changes_only_master_samples
    (datasetPolicy : Policy D) (w : World D) :
  match normalizeMasterFlat string_of_double datasetPolicy w with
  | Next _ w' | Throw _ w' =>
      chunkExposure w' = chunkExposure w /\
      getCols (masterChunkExposure w') = getCols (masterChunkExposure w) /\
      getRows (masterChunkExposure w') = getRows (masterChunkExposure w) /\
      List.length (image (masterChunkExposure w'))
      = List.length (image (masterChunkExposure w)) /\
      mask (masterChunkExposure w') = mask (masterChunkExposure w) /\
      metadata (masterChunkExposure w') = metadata (masterChunkExposure w)
  | Return _ _ => False
  end.
Proof.
  pose proof (normalizeMasterFlat_frame datasetPolicy w) as Hf.
  destruct (normalizeMasterFlat string_of_double datasetPolicy w);
    try exact Hf;
    destruct Hf as (Hc & (A & B & C & M & E) & _); repeat split; assumption.
Qed.

(** X9. A master flat that declares no samples (no rows or no columns) is
    not read at all: the statistics come out as the quotient 0/0 and its
    square root, with no pixel access. *)
Theorem empty_master_flat_is_not_read (w : World D) :
  sizeOf w = 0%nat ->
  flatStatistics w
  = Next (ddiv dzero (of_long 0), dsqrt (ddiv dzero (of_long 0))) w.
Proof.
  intros Hs. rewrite flatStatistics_reads. cbv zeta. rewrite Hs. cbn.
  now rewrite withEvents_nil.
Qed.

(** X10. When the flat policy has [flatFieldScale] and [stretchFactor] but
    not both [sigClip] and [sigClipVal], the correction stage fails on the
    missing lookup after the master flat has been multiplied by
    [stretchFactor]: the master flat stays scaled, the science image is
    untouched. *)
Theorem correction_fails_with_master_flat_scaled
    (flatPolicy : Policy D) (w : World D) scale stretch :
  policyLookup "flatFieldScale" flatPolicy = Some (PDouble scale) ->
  policyLookup "stretchFactor" flatPolicy = Some (PDouble stretch) ->
  (forall b, policyLookup "sigClip" flatPolicy <> Some (PBool b)) \/
  (forall d, policyLookup "sigClipVal" flatPolicy <> Some (PDouble d)) ->
  exists e w',
    divideByMasterFlat flatPolicy w = Throw e w' /\
    errorKind e = ConfigNotFound /\
    image (masterChunkExposure w')
    = map (fun p => dmul p stretch) (image (masterChunkExposure w)) /\
    chunkExposure w' = chunkExposure w.
Proof.
  intros Hscale Hstretch Hclip.
  unfold divideByMasterFlat, bind, getDouble, getBool, master_mul_scalar.
  rewrite Hscale, Hstretch. cbn [pure].
  destruct (policyLookup "sigClip" flatPolicy) as [[s | d | b | q] | ] eqn:Hc;
    try (do 2 eexists; repeat split; fail).
  cbn [pure].
  destruct (policyLookup "sigClipVal" flatPolicy) as [[s | d | b' | q] | ]
    eqn:Hv; try (do 2 eexists; repeat split; fail).
  destruct Hclip as [Hno | Hno]; [now destruct (Hno b) | now destruct (Hno d)].
Qed.

(** X11. When the flat policy lacks a number for [flatFieldScale] or for
    [stretchFactor], the correction stage fails on that lookup with nothing
    changed. *)
Theorem correction_fails_clean_without_scale_or_stretch
    (flatPolicy : Policy D) (w : World D) :
  (forall d, policyLookup "flatFieldScale" flatPolicy <> Some (PDouble d)) \/
  (forall d, policyLookup "stretchFactor" flatPolicy <> Some (PDouble d)) ->
  exists e,
    divideByMasterFlat flatPolicy w = Throw e w /\
    errorKind e = ConfigNotFound.
Proof.
  intros Hno.
  unfold divideByMasterFlat, bind, getDouble.
  destruct (policyLookup "flatFieldScale" flatPolicy)
    as [[s | d | b | q] | ] eqn:Hs;
    try (eexists; split; reflexivity).
  cbn [pure].
  destruct (policyLookup "stretchFactor" flatPolicy)
    as [[s | d' | b | q] | ] eqn:Ht;
    try (eexists; split; reflexivity).
  destruct Hno as [Hno | Hno]; [now destruct (Hno d) | now destruct (Hno d')].
Qed.

(** X12. The stages after the checks keep both exposures well-formed and
    of the size they had, however they end. *)
Theorem stages_keep_exposures_well_formed
    (flatPolicy datasetPolicy : Policy D) (w : World D) :
  wellFormed (chunkExposure w) ->
  wellFormed (masterChunkExposure w) ->
  match normalizeAndCorrect string_of_double flatPolicy datasetPolicy w with
  | Next _ w' | Throw _ w' =>
      wellFormed (chunkExposure w') /\
      wellFormed (masterChunkExposure w') /\
      getCols (chunkExposure w') = getCols (chunkExposure w) /\
      getRows (chunkExposure w') = getRows (chunkExposure w) /\
      getCols (masterChunkExposure w') = getCols (masterChunkExposure w) /\
      getRows (masterChunkExposure w') = getRows (masterChunkExposure w)
  | Return _ _ => False
  end.
Proof.
  intros Hc Hm. unfold normalizeAndCorrect. unfold bind at 1.
  pose proof (normalizeMasterFlat_frame datasetPolicy w) as H1.
  destruct (normalizeMasterFlat string_of_double datasetPolicy w)
    as [[] w1 | v w1 | e w1]; [ | exact H1 | ].
  - destruct H1 as (Hc1 & Hm1 & _). unfold bind at 1.
    pose proof (divideByMasterFlat_frame flatPolicy w1) as H2.
    destruct (divideByMasterFlat flatPolicy w1)
      as [[] w2 | v w2 | e w2]; [ | exact H2 | ].
    + destruct H2 as (Hc2 & Hm2 & _). rewrite Hc1 in Hc2.
      pose proof (sameButSamples_trans _ _ _ Hm1 Hm2) as Hm12.
      cbn. unfold wellFormed at 1. cbn.
      destruct Hc2 as (A & B & C & M & E).
      destruct Hm12 as (A' & B' & _).
      split; [ | split; [exact (sameButSamples_wellFormed _ _
                                   (sameButSamples_trans _ _ _ Hm1 Hm2) Hm)
                        | repeat split; assumption ] ].
      destruct Hc as [Hi Hk]. rewrite A, B, C, M. split; assumption.
    + destruct H2 as (Hc2 & Hm2 & _). rewrite Hc1 in Hc2.
      pose proof (sameButSamples_trans _ _ _ Hm1 Hm2) as Hm12.
      split; [exact (sameButSamples_wellFormed _ _ Hc2 Hc) | ].
      split; [exact (sameButSamples_wellFormed _ _ Hm12 Hm) | ].
      destruct Hc2 as (A & B & _). destruct Hm12 as (A' & B' & _).
      repeat split; assumption.
  - destruct H1 as (Hc1 & Hm1 & _). rewrite Hc1.
    split; [exact Hc | ].
    split; [exact (sameButSamples_wellFormed _ _ Hm1 Hm) | ].
    destruct Hm1 as (A' & B' & _). repeat split; assumption.
Qed.

End StageFrames.

Section StageComposition.

Context {D : Type} `{Double D}.
Variable string_of_double : D -> string.

Lemma filter_nothing {A : Type} (f : A -> bool) (l : list A) :
  (forall x, In x l -> f x = false) -> filter f l = [].
Proof.
  induction l as [ | x l IH]; intros Hf; [reflexivity | ].
  cbn. rewrite (Hf x (or_introl eq_refl)). apply IH.
  intros y Hy. apply Hf. now right.
Qed.

(** A property added under a name no entry has is then found by that
    name. *)
Lemma findUnique_added (name : string) (v : Any D) (md : Metadata D) :
  (forall p, In p md -> getName p <> name) ->
  findUnique name (addProperty (name, v) md) = Some (name, v).
Proof.
  intros Hno. unfold findUnique, addProperty. rewrite filter_app.
  rewrite filter_nothing.
  - cbn. now rewrite String.eqb_refl.
  - intros p Hp. apply String.eqb_neq. now apply Hno.
Qed.

(** The metadata of the science image after a run of the stages to their
    end. *)
Lemma normalizeAndCorrect_metadata
    (flatPolicy datasetPolicy : Policy D) (w : World D) :
  match normalizeAndCorrect string_of_double flatPolicy datasetPolicy w with
  | Next _ w' =>
      metadata (chunkExposure w')
      = addProperty ("ISR_FLATCOR", AnyString "Complete")
                    (metadata (chunkExposure w))
  | _ => True
  end.
Proof.
  unfold normalizeAndCorrect. unfold bind at 1.
  pose proof (normalizeMasterFlat_frame string_of_double datasetPolicy w)
    as H1.
  destruct (normalizeMasterFlat string_of_double datasetPolicy w)
    as [[] w1 | v w1 | e w1]; try exact I.
  destruct H1 as (Hc1 & _). unfold bind at 1.
  pose proof (divideByMasterFlat_frame flatPolicy w1) as H2.
  destruct (divideByMasterFlat flatPolicy w1)
    as [[] w2 | v w2 | e w2]; try exact I.
  destruct H2 as ((_ & _ & _ & _ & Hmd) & _).
  cbn. now rewrite Hmd, Hc1.
Qed.

(** X13. A science image without an "ISR_FLATCOR" entry that the stages
    after the checks have run on to their end is refused by the function
    from then on: any further call throws [Runtime] at the entry check,
    with nothing changed. *)
Theorem corrected_image_is_refused_afterwards
    (string_of_double' : D -> string)
    (flatPolicy datasetPolicy isrPolicy' datasetPolicy' : Policy D)
    (w : World D) :
  (forall p, In p (metadata (chunkExposure w)) ->
             getName p <> "ISR_FLATCOR") ->
  match normalizeAndCorrect string_of_double flatPolicy datasetPolicy w with
  | Next _ w' =>
      flatFieldCorrectChunkExposure string_of_double' isrPolicy'
                                    datasetPolicy' w'
      = Throw (Runtime "Flat Field correction previously performed.") w'
  | _ => True
  end.
Proof.
  intros Hno.
  pose proof (normalizeAndCorrect_metadata flatPolicy datasetPolicy w) as Hmd.
  destruct (normalizeAndCorrect string_of_double flatPolicy datasetPolicy w)
    as [[] w' | v w' | e w']; try exact I.
  apply (stage_with_marker _ _ _ w' ("ISR_FLATCOR", AnyString "Complete")).
  rewrite Hmd. apply findUnique_added, Hno.
Qed.

(** The stages after the checks, run to their end. *)
Lemma normalizeAndCorrect_runs
    (flatPolicy datasetPolicy : Policy D) (w : World D)
    d scale stretch clip clipVal :
  policyLookup "normalizeKey" datasetPolicy = Some (PDouble d) ->
  findUnique (string_of_double d) (metadata (chunkExposure w)) = None ->
  wellFormed (masterChunkExposure w) ->
  policyLookup "flatFieldScale" flatPolicy = Some (PDouble scale) ->
  policyLookup "stretchFactor" flatPolicy = Some (PDouble stretch) ->
  policyLookup "sigClip" flatPolicy = Some (PBool clip) ->
  policyLookup "sigClipVal" flatPolicy = Some (PDouble clipVal) ->
  exists w',
    normalizeAndCorrect string_of_double flatPolicy datasetPolicy w
    = Next tt w' /\
    image (masterChunkExposure w')
    = scaledFlat (meanOf (image (masterChunkExposure w))) stretch scale
                 (image (masterChunkExposure w)) /\
    image (chunkExposure w')
    = divideImage (image (chunkExposure w))
                  (image (masterChunkExposure w')) /\
    metadata (chunkExposure w')
    = addProperty ("ISR_FLATCOR", AnyString "Complete")
                  (metadata (chunkExposure w)).
Proof.
  intros Hk Hf Hw Hscale Hstretch Hclip HclipVal.
  unfold normalizeAndCorrect. unfold bind at 1.
  rewrite (normalizeMasterFlat_absent string_of_double _ w d Hk Hf).
  rewrite (divideByMean_divides w Hw).
  unfold divideByMasterFlat, bind, getDouble, getBool, master_mul_scalar,
    chunk_div_master, recordProvenance, chunkMetadata_addProperty, TTrace.
  rewrite Hscale, Hstretch. cbn [pure]. rewrite Hclip, HclipVal. cbn [pure].
  unfold scaledFlat.
  destruct (to_bool scale); cbn; eexists; (split; [reflexivity | ]); cbn;
    rewrite ?map_map; repeat split.
Qed.

(** X14. The stages after the checks compose: with a key [getDouble] reads,
    no marker found, a well-formed master flat of mean [mu] and the four
    parameters in the flat policy, they run to their end; a master sample
    [m] becomes [m / mu * stretchFactor], times [flatFieldScale] when that
    is not zero; the science sample at the same place is divided by it; and
    the metadata of the science image gains "ISR_FLATCOR" = "Complete". *)
Theorem stages_normalize_scale_divide_and_record
    (flatPolicy datasetPolicy : Policy D) (w : World D)
    d scale stretch clip clipVal :
  policyLookup "normalizeKey" datasetPolicy = Some (PDouble d) ->
  findUnique (string_of_double d) (metadata (chunkExposure w)) = None ->
  wellFormed (masterChunkExposure w) ->
  policyLookup "flatFieldScale" flatPolicy = Some (PDouble scale) ->
  policyLookup "stretchFactor" flatPolicy = Some (PDouble stretch) ->
  policyLookup "sigClip" flatPolicy = Some (PBool clip) ->
  policyLookup "sigClipVal" flatPolicy = Some (PDouble clipVal) ->
  exists w',
    normalizeAndCorrect string_of_double flatPolicy datasetPolicy w
    = Next tt w' /\
    (forall i s m,
        nth_error (image (chunkExposure w)) i = Some s ->
        nth_error (image (masterChunkExposure w)) i = Some m ->
        let mu := meanOf (image (masterChunkExposure w)) in
        let m' := if to_bool scale
                  then dmul (dmul (ddiv m mu) stretch) scale
                  else dmul (ddiv m mu) stretch in
        nth_error (image (masterChunkExposure w')) i = Some m' /\
        nth_error (image (chunkExposure w')) i = Some (ddiv s m')) /\
    metadata (chunkExposure w')
    = metadata (chunkExposure w) ++ [("ISR_FLATCOR", AnyString "Complete")].
Proof.
  intros Hk Hf Hw Hscale Hstretch Hclip HclipVal.
  destruct (normalizeAndCorrect_runs flatPolicy datasetPolicy w d scale
              stretch clip clipVal Hk Hf Hw Hscale Hstretch Hclip HclipVal)
    as (w' & Hrun & Hm & Hc & Hmd).
  exists w'. split; [exact Hrun | ]. split; [ | exact Hmd].
  intros i s m Hs Hmi mu m'.
  assert (Hm' : nth_error (image (masterChunkExposure w')) i = Some m').
  { rewrite Hm. unfold scaledFlat, m', mu.
    destruct (to_bool scale).
    - exact (map_nth_error
               (fun x => dmul (dmul (ddiv x _) stretch) scale) _ _ Hmi).
    - exact (map_nth_error (fun x => dmul (ddiv x _) stretch) _ _ Hmi). }
  split; [exact Hm' | ].
  rewrite Hc. now apply divideImage_nth.
Qed.

End StageComposition.

(** * The further properties on the example inputs *)

(** Two master flats of the same size, one of them bare, and two dataset
    policies: the same return. *)
Lemma stage_reads_only_the_science_image_and_the_sizes_witness :
  policyLookup "flatPolicy" isrPolicy_example
  = Some (PPolicy flatPolicy_example) /\
  policyLookup "chunkType" flatPolicy_example = Some (PString "amp") /\
  chunkExposure (world science4x4 flat4x4)
  = chunkExposure (world science4x4 flat4x4_bare) /\
  getCols (masterChunkExposure (world science4x4 flat4x4))
  = getCols (masterChunkExposure (world science4x4 flat4x4_bare)) /\
  getRows (masterChunkExposure (world science4x4 flat4x4))
  = getRows (masterChunkExposure (world science4x4 flat4x4_bare)) /\
  ((exists v,
       flatFieldCorrectChunkExposure keyOfDouble isrPolicy_example
         datasetPolicy_string (world science4x4 flat4x4)
       = Return v (world science4x4 flat4x4) /\
       flatFieldCorrectChunkExposure keyOfDouble isrPolicy_example
         datasetPolicy_double (world science4x4 flat4x4_bare)
       = Return v (world science4x4 flat4x4_bare)) \/
   (exists e,
       flatFieldCorrectChunkExposure keyOfDouble isrPolicy_example
         datasetPolicy_string (world science4x4 flat4x4)
       = Throw e (world science4x4 flat4x4) /\
       flatFieldCorrectChunkExposure keyOfDouble isrPolicy_example
         datasetPolicy_double (world science4x4 flat4x4_bare)
       = Throw e (world science4x4 flat4x4_bare))).
Proof.
  repeat (split; [reflexivity | ]).
  apply (stage_reads_only_the_science_image_and_the_sizes keyOfDouble
           keyOfDouble isrPolicy_example flatPolicy_example
           datasetPolicy_string datasetPolicy_double
           (world science4x4 flat4x4) (world science4x4 flat4x4_bare));
    reflexivity.
Defined.

(** The identifier -1, over a master flat without "AMPID": 2^32 - 1 comes
    back. *)
Lemma stage_returns_the_AMPID_of_the_science_image_witness :
  findUnique "ISR_FLATCOR"
    (metadata (chunkExposure (world scienceNegative4x4 flat4x4_noAmp)))
  = None /\
  policyLookup "flatPolicy" isrPolicy_example
  = Some (PPolicy flatPolicy_example) /\
  policyLookup "chunkType" flatPolicy_example = Some (PString "amp") /\
  findUnique "AMPID"
    (metadata (chunkExposure (world scienceNegative4x4 flat4x4_noAmp)))
  = Some ("AMPID", AnyInt (-1)) /\
  findUnique "AMPID"
    (metadata (masterChunkExposure (world scienceNegative4x4 flat4x4_noAmp)))
  = None /\
  flatFieldCorrectChunkExposure keyOfDouble isrPolicy_example
    datasetPolicy_string (world scienceNegative4x4 flat4x4_noAmp)
  = Return (RetUInt 4294967295) (world scienceNegative4x4 flat4x4_noAmp).
Proof.
  repeat (split; [reflexivity | ]).
  exact (stage_returns_the_AMPID_of_the_science_image keyOfDouble
           isrPolicy_example flatPolicy_example datasetPolicy_string
           (world scienceNegative4x4 flat4x4_noAmp) "AMPID" (-1)
           eq_refl eq_refl eq_refl eq_refl eq_refl eq_refl).
Defined.

(** A science image that has its "CCDID" and no "AMPID". *)
Lemma stage_wants_the_AMPID_of_the_science_image_witness :
  findUnique "CCDID" (metadata (chunkExposure (world scienceCcd4x4 flat4x4)))
  = Some ("CCDID", AnyInt 7) /\
  findUnique "AMPID" (metadata (chunkExposure (world scienceCcd4x4 flat4x4)))
  = None /\
  policyLookup "chunkType" flatPolicy_example = Some (PString "amp") /\
  flatFieldCorrectChunkExposure keyOfDouble isrPolicy_example
    datasetPolicy_string (world scienceCcd4x4 flat4x4)
  = Throw (NotFound (In_func ": Could not get AMPID from the Chunk Metadata."))
          (world scienceCcd4x4 flat4x4).
Proof.
  repeat (split; [reflexivity | ]).
  exact (stage_wants_the_AMPID_of_the_science_image keyOfDouble
           isrPolicy_example flatPolicy_example datasetPolicy_string
           (world scienceCcd4x4 flat4x4)
           eq_refl eq_refl eq_refl eq_refl eq_refl eq_refl).
Defined.

Lemma stage_fails_on_unreadable_policy_witness :
  (forall q, policyLookup "flatPolicy" isrPolicy_empty <> Some (PPolicy q)) /\
  flatFieldCorrectChunkExposure keyOfDouble isrPolicy_empty
    datasetPolicy_string (world science4x4 flat4x4)
  = Throw (PolicyError "flatPolicy") (world science4x4 flat4x4) /\
  policyLookup "flatPolicy" isrPolicy_noType = Some (PPolicy []) /\
  (forall t, policyLookup "chunkType" (@nil (string * PolicyValue float))
             <> Some (PString t)) /\
  flatFieldCorrectChunkExposure keyOfDouble isrPolicy_noType
    datasetPolicy_string (world science4x4 flat4x4)
  = Throw (PolicyError "chunkType") (world science4x4 flat4x4).
Proof.
  assert (H1 : forall q, policyLookup "flatPolicy" isrPolicy_empty
                         <> Some (PPolicy q)) by (intros q; discriminate).
  assert (H2 : forall t,
             policyLookup "chunkType" (@nil (string * PolicyValue float))
             <> Some (PString t)) by (intros t; discriminate).
  split; [exact H1 | ]. split.
  - exact (proj1 (stage_fails_on_unreadable_policy keyOfDouble
                    isrPolicy_empty datasetPolicy_string
                    (world science4x4 flat4x4) eq_refl eq_refl eq_refl) H1).
  - split; [reflexivity | ]. split; [exact H2 | ].
    exact (proj2 (stage_fails_on_unreadable_policy keyOfDouble
                    isrPolicy_noType datasetPolicy_string
                    (world science4x4 flat4x4) eq_refl eq_refl eq_refl)
                 [] eq_refl H2).
Defined.

(** Filter 2 on the science image, the name "r" on the master flat. *)
Lemma filter_check_with_both_entries_witness :
  findUnique "FILTER"
    (metadata (chunkExposure (world science4x4 flat4x4_filterName)))
  = Some ("FILTER", AnyInt 2) /\
  findUnique "FILTER"
    (metadata (masterChunkExposure (world science4x4 flat4x4_filterName)))
  = Some ("FILTER", AnyString "r") /\
  checkSameFilter (world science4x4 flat4x4_filterName)
  = Throw bad_any_cast (world science4x4 flat4x4_filterName).
Proof.
  repeat (split; [reflexivity | ]).
  exact (filter_check_with_both_entries
           (world science4x4 flat4x4_filterName)
           ("FILTER", AnyInt 2) ("FILTER", AnyString "r") eq_refl eq_refl).
Defined.

Lemma filter_check_with_an_entry_missing_witness :
  findUnique "FILTER"
    (metadata (chunkExposure (world scienceNoFilter4x4 flat4x4))) = None /\
  checkSameFilter (world scienceNoFilter4x4 flat4x4)
  = Throw (NotFound (In_func ": Could not get FILTER from the Chunk Metadata."))
          (world scienceNoFilter4x4 flat4x4) /\
  findUnique "FILTER"
    (metadata (masterChunkExposure (world science4x4 flat4x4_bare))) = None /\
  checkSameFilter (world science4x4 flat4x4_bare)
  = Throw (NotFound (In_func ": Could not get FILTER from the Master Flat Field Chunk Metadata."))
          (world science4x4 flat4x4_bare).
Proof.
  split; [reflexivity | ]. split.
  - exact (proj1 (filter_check_with_an_entry_missing
                    (world scienceNoFilter4x4 flat4x4)) eq_refl).
  - split; [reflexivity | ].
    exact (proj2 (filter_check_with_an_entry_missing
                    (world science4x4 flat4x4_bare))
                 "FILTER" 2 eq_refl eq_refl).
Defined.

(** A master flat with no rows, in binary64: both statistics are NaN and
    nothing was read. *)
Lemma empty_master_flat_is_not_read_witness :
  sizeOf (world science0x4 flat0x4) = 0%nat /\
  flatStatistics (world science0x4 flat0x4)
  = Next (nan, nan) (world science0x4 flat0x4).
Proof.
  split; [reflexivity | ].
  exact (empty_master_flat_is_not_read (world science0x4 flat0x4) eq_refl).
Defined.

(** A flat policy with stretchFactor 3 and no [sigClip]: the master flat
    of 2.0 is left at 6.0 and the science image at 1000.0. *)
Lemma correction_fails_with_master_flat_scaled_witness :
  policyLookup "flatFieldScale" flatPolicy_noClip = Some (PDouble 0%float) /\
  policyLookup "stretchFactor" flatPolicy_noClip = Some (PDouble 3%float) /\
  (forall b, policyLookup "sigClip" flatPolicy_noClip <> Some (PBool b)) /\
  exists e w',
    divideByMasterFlat flatPolicy_noClip (world science4x4 flat4x4)
    = Throw e w' /\
    errorKind e = ConfigNotFound /\
    image (masterChunkExposure w') = repeat 6%float 16 /\
    chunkExposure w' = science4x4.
Proof.
  assert (Hno : forall b, policyLookup "sigClip" flatPolicy_noClip
                          <> Some (PBool b)) by (intros b; discriminate).
  repeat (split; [reflexivity | ]). split; [exact Hno | ].
  destruct (correction_fails_with_master_flat_scaled flatPolicy_noClip
              (world science4x4 flat4x4) 0%float 3%float
              eq_refl eq_refl (or_introl Hno))
    as (e & w' & Hrun & He & Hm & Hc).
  exists e, w'. repeat split; assumption.
Defined.

Lemma correction_fails_clean_without_scale_or_stretch_witness :
  (forall d, policyLookup "stretchFactor" flatPolicy_noStretch
             <> Some (PDouble d)) /\
  exists e,
    divideByMasterFlat flatPolicy_noStretch (world science4x4 flat4x4)
    = Throw e (world science4x4 flat4x4) /\
    errorKind e = ConfigNotFound.
Proof.
  assert (Hno : forall d, policyLookup "stretchFactor" flatPolicy_noStretch
                          <> Some (PDouble d)) by (intros d; discriminate).
  split; [exact Hno | ].
  exact (correction_fails_clean_without_scale_or_stretch
           flatPolicy_noStretch (world science4x4 flat4x4) (or_intror Hno)).
Defined.

Lemma stages_keep_exposures_well_formed_witness :
  wellFormed science4x4 /\
  wellFormed flat4x4 /\
  exists w',
    normalizeAndCorrect keyOfDouble flatPolicy_example datasetPolicy_double
                        (world science4x4 flat4x4)
    = Next tt w' /\
    wellFormed (chunkExposure w') /\
    wellFormed (masterChunkExposure w').
Proof.
  assert (Hc : wellFormed science4x4) by (split; reflexivity).
  assert (Hm : wellFormed flat4x4) by (split; reflexivity).
  split; [exact Hc | ]. split; [exact Hm | ].
  pose proof (stages_keep_exposures_well_formed keyOfDouble
                flatPolicy_example datasetPolicy_double
                (world science4x4 flat4x4) Hc Hm) as Hk.
  assert (E : exists w',
             normalizeAndCorrect keyOfDouble flatPolicy_example
                                 datasetPolicy_double
                                 (world science4x4 flat4x4)
             = Next tt w')
    by (eexists; vm_compute; reflexivity).
  destruct E as (w' & E). rewrite E in Hk.
  destruct Hk as (H1 & H2 & _).
  exists w'. split; [exact E | split; assumption].
Defined.

(** The example of the specification, corrected, then given to the
    function again. *)
Lemma corrected_image_is_refused_afterwards_witness :
  (forall p, In p (metadata (chunkExposure (world science4x4 flat4x4))) ->
             getName p <> "ISR_FLATCOR") /\
  exists w',
    normalizeAndCorrect keyOfDouble flatPolicy_example datasetPolicy_double
                        (world science4x4 flat4x4)
    = Next tt w' /\
    flatFieldCorrectChunkExposure keyOfDouble isrPolicy_example
                                  datasetPolicy_double w'
    = Throw (Runtime "Flat Field correction previously performed.") w'.
Proof.
  assert (Hno : forall p,
             In p (metadata (chunkExposure (world science4x4 flat4x4))) ->
             getName p <> "ISR_FLATCOR").
  { intros p [<- | [<- | []]]; discriminate. }
  split; [exact Hno | ].
  pose proof (corrected_image_is_refused_afterwards keyOfDouble keyOfDouble
                flatPolicy_example datasetPolicy_double isrPolicy_example
                datasetPolicy_double (world science4x4 flat4x4) Hno) as Hk.
  assert (E : exists w',
             normalizeAndCorrect keyOfDouble flatPolicy_example
                                 datasetPolicy_double
                                 (world science4x4 flat4x4)
             = Next tt w')
    by (eexists; vm_compute; reflexivity).
  destruct E as (w' & E). rewrite E in Hk.
  exists w'. split; assumption.
Defined.

(** The example of the specification: 2.0 / 2.0 * 1.0 = 1.0 for the master
    flat and 1000.0 / 1.0 for the science image, sample by sample. *)
Lemma stages_normalize_scale_divide_and_record_witness :
  policyLookup "normalizeKey" datasetPolicy_double = Some (PDouble 1%float) /\
  findUnique (keyOfDouble 1%float)
             (metadata (chunkExposure (world science4x4 flat4x4))) = None /\
  wellFormed (masterChunkExposure (world science4x4 flat4x4)) /\
  exists w',
    normalizeAndCorrect keyOfDouble flatPolicy_example datasetPolicy_double
                        (world science4x4 flat4x4)
    = Next tt w' /\
    (forall i s m,
        nth_error (image science4x4) i = Some s ->
        nth_error (image flat4x4) i = Some m ->
        nth_error (image (masterChunkExposure w')) i
        = Some (m / 2 * 1)%float /\
        nth_error (image (chunkExposure w')) i
        = Some (s / (m / 2 * 1))%float) /\
    metadata (chunkExposure w')
    = scienceMetadata ++ [("ISR_FLATCOR", AnyString "Complete")].
Proof.
  assert (Hw : wellFormed (masterChunkExposure (world science4x4 flat4x4)))
    by (split; reflexivity).
  repeat (split; [reflexivity | ]). split; [exact Hw | ].
  destruct (stages_normalize_scale_divide_and_record keyOfDouble
              flatPolicy_example datasetPolicy_double
              (world science4x4 flat4x4) 1%float 0%float 1%float false
              3%float eq_refl eq_refl Hw eq_refl eq_refl eq_refl eq_refl)
    as (w' & Hrun & Hpix & Hmd).
  exists w'. split; [exact Hrun | ]. split; [ | exact Hmd].
  intros i s m Hs Hm. exact (Hpix i s m Hs Hm).
Defined.

(** X16. The normalization stage leaves no trace of having run: after it
    has divided the master flat by its mean, the marker is still not found,
    and the stage run again on the result divides the master flat by its
    mean again. *)
Theorem normalization_is_repeated_on_each_call
    {D : Type} `{Double D} (string_of_double : D -> string)
    (datasetPolicy : Policy D) (w : World D) d :
  policyLookup "normalizeKey" datasetPolicy = Some (PDouble d) ->
  findUnique (string_of_double d) (metadata (chunkExposure w)) = None ->
  exists w',
    normalizeMasterFlat string_of_double datasetPolicy w = Next tt w' /\
    findUnique (string_of_double d) (metadata (chunkExposure w')) = None /\
    normalizeMasterFlat string_of_double datasetPolicy w' = divideByMean w'.
Proof.
  intros Hk Hf.
  destruct (divideByMean_frame w) as (w' & Hrun & Hc & _).
  assert (Hf' : findUnique (string_of_double d) (metadata (chunkExposure w'))
                = None) by (rewrite Hc; exact Hf).
  exists w'. split; [ | split; [exact Hf' | ] ].
  - rewrite (normalizeMasterFlat_absent string_of_double _ w d Hk Hf).
    exact Hrun.
  - exact (normalizeMasterFlat_absent string_of_double _ w' d Hk Hf').
Qed.

(** The master flat of the example: normalized by a first run, and divided
    by its mean once more by a second. *)
Lemma normalization_is_repeated_on_each_call_witness :
  policyLookup "normalizeKey" datasetPolicy_double = Some (PDouble 1%float) /\
  findUnique (keyOfDouble 1%float)
             (metadata (chunkExposure (world science4x4 flat4x4))) = None /\
  exists w',
    normalizeMasterFlat keyOfDouble datasetPolicy_double
                        (world science4x4 flat4x4) = Next tt w' /\
    normalizeMasterFlat keyOfDouble datasetPolicy_double w'
    = divideByMean w'.
Proof.
  repeat (split; [reflexivity | ]).
  destruct (normalization_is_repeated_on_each_call keyOfDouble
              datasetPolicy_double (world science4x4 flat4x4) 1%float
              eq_refl eq_refl) as (w' & Hrun & _ & Hagain).
  exists w'. split; assumption.
Defined.

(** C9. No call of the function writes the provenance: every call ends in a
    [return] or a throw with the state it was called in, so line 285 is
    never reached. On the example of the specification the function returns
    the identifier 1 from line 120 and the science image has no
    "ISR_FLATCOR" entry afterwards, where the stages after the checks, had
    they been reached, would have added it. *)
Theorem provenance_never_written_by_the_function :
  (forall (D : Type) (HD : Double D) (string_of_double : D -> string)
          (isrPolicy datasetPolicy : Policy D) (w : World D),
      match flatFieldCorrectChunkExposure string_of_double isrPolicy
                                          datasetPolicy w with
      | Next _ _ => False
      | Return _ w' | Throw _ w' =>
          w' = w /\
          timesAdded "ISR_FLATCOR" (events w')
          = timesAdded "ISR_FLATCOR" (events w)
      end) /\
  flatFieldCorrectChunkExposure keyOfDouble isrPolicy_example
                                datasetPolicy_double
                                (world science4x4 flat4x4)
  = Return (RetUInt 1) (world science4x4 flat4x4) /\
  findUnique "ISR_FLATCOR"
             (metadata (chunkExposure (world science4x4 flat4x4))) = None /\
  exists w',
    normalizeAndCorrect keyOfDouble flatPolicy_example datasetPolicy_double
                        (world science4x4 flat4x4)
    = Next tt w' /\
    findUnique "ISR_FLATCOR" (metadata (chunkExposure w'))
    = Some ("ISR_FLATCOR", AnyString "Complete").
Proof.
  split; [ | split; [reflexivity | split; [reflexivity | ] ] ].
  - intros D HD string_of_double isrPolicy datasetPolicy w.
    pose proof (flatFieldCorrectChunkExposure_stops string_of_double
                  isrPolicy datasetPolicy w) as Hs.
    destruct (flatFieldCorrectChunkExposure string_of_double isrPolicy
                datasetPolicy w) as [a w' | v w' | e w'].
    + exact Hs.
    + subst w'. split; reflexivity.
    + destruct Hs as [-> _]. split; reflexivity.
  - eexists. split; vm_compute; reflexivity.
Qed.

(** A master flat that is zero everywhere, with zeros after it in memory:
    the second pass reads the zeros past the image, and sigma comes out as
    0, which is also the standard deviation of the samples. *)
Lemma sigma_of_the_zero_flat_is_its_deviation :
  wellFormed flatZero2x2 /\
  exists w',
    flatStatistics (world science2x2 flatZero2x2)
    = Next (0%float, stddevOf (image flatZero2x2)) w' /\
    events w' = map ReadPixel [0; 1; 2; 3; 4; 5; 6; 7]%nat.
Proof.
  split; [split; reflexivity | ].
  eexists. split; vm_compute; reflexivity.
Qed.
